(** * Rsync folder manager: the job registry, the process runner and the
      configuration load/save path

    A shallow embedding of [src/sync_manager.py] (class [SyncManager]),
    of [RsyncTrayApp.load_config] from [src/main.py] and of
    [ConfigDialog.__init__] / [ConfigDialog.accept] from
    [src/config_dialog.py], together with the properties the
    specification states about them.

    Conventions of the embedding.
    - A Python [dict] keeps insertion order; it is an association list in
      which assignment to a present key keeps the key's position and
      assignment to a fresh key appends (module [PyDict]).
    - A method that mutates [self], emits Qt signals or may raise is a
      function [S -> outcome A * S]: the state after the call is returned
      also when the call raises, because Python does not roll back.
    - The outside world (file system, [subprocess.Popen], the child
      process) is an [environment] of answers; the answers may depend on
      the commands launched so far.
    - Emitting a signal appends it to a trace.  The slots connected to the
      signals are not part of the manager: they are taken to return
      normally and not to call back into it.
    - Job fields carry the types the data model gives them: strings for
      the name and the two paths, a list of strings for the options, a
      boolean and an integer. *)

From Stdlib Require Import List Ascii String ZArith Bool Lia.
Import ListNotations.
Open Scope string_scope.
Open Scope list_scope.

Set Implicit Arguments.

(** ** Python dictionaries with string keys *)

Module PyDict.
Section Dict.
Variable V : Type.

Definition t := list (string * V).

Definition empty : t := [].

(** [d.get(k)] *)
Fixpoint get (k : string) (d : t) : option V :=
  match d with
  | [] => None
  | (k', v) :: rest => if String.eqb k k' then Some v else get k rest
  end.

(** [k in d] *)
Definition mem (k : string) (d : t) : bool :=
  match get k d with Some _ => true | None => false end.

(** [d[k] = v] *)
Fixpoint set (k : string) (v : V) (d : t) : t :=
  match d with
  | [] => [(k, v)]
  | (k', v') :: rest =>
      if String.eqb k k' then (k, v) :: rest else (k', v') :: set k v rest
  end.

(** [del d[k]]; [None] stands for [KeyError]. *)
Fixpoint del (k : string) (d : t) : option t :=
  match d with
  | [] => None
  | (k', v') :: rest =>
      if String.eqb k k' then Some rest
      else match del k rest with
           | Some rest' => Some ((k', v') :: rest')
           | None => None
           end
  end.

(** [list(d)], [list(d.values())] *)
Definition keys (d : t) : list string := map fst d.
Definition values (d : t) : list V := map snd d.

(** [d.copy()]: a new dictionary with the same entries. *)
Definition copy (d : t) : t := d.

End Dict.
End PyDict.

(** ** Exceptions and the state-and-exception monad *)

(** A Python exception, kept as the text [str(e)] gives. *)
Inductive exn : Type := Exn (text : string).

Definition str (e : exn) : string := let 'Exn s := e in s.

Inductive outcome (A : Type) : Type :=
| Return (a : A)
| Raise (e : exn).
Arguments Return {A} a.
Arguments Raise {A} e.

Definition M (S A : Type) : Type := S -> outcome A * S.

Definition ret {S A} (a : A) : M S A := fun s => (Return a, s).
Definition raise {S A} (e : exn) : M S A := fun s => (Raise e, s).

Definition bind {S A B} (m : M S A) (f : A -> M S B) : M S B :=
  fun s => match m s with
           | (Return a, s') => f a s'
           | (Raise e, s') => (Raise e, s')
           end.

(** [try: body except Exception as e: handler(e)] *)
Definition try_except {S A} (body : M S A) (handler : exn -> M S A) : M S A :=
  fun s => match body s with
           | (Return a, s') => (Return a, s')
           | (Raise e, s') => handler e s'
           end.

Definition get_state {S} : M S S := fun s => (Return s, s).
Definition modify {S} (f : S -> S) : M S unit := fun s => (Return tt, f s).

(** [for x in xs: body(x)] *)
Fixpoint for_each {S A} (xs : list A) (body : A -> M S unit) : M S unit :=
  match xs with
  | [] => ret tt
  | x :: rest => bind (body x) (fun _ => for_each rest body)
  end.

Declare Scope py_scope.
Delimit Scope py_scope with py.
Notation "x <- m ;; k" := (bind m (fun x => k))
  (at level 61, m at next level, right associativity) : py_scope.
Notation "m ;;; k" := (bind m (fun _ => k))
  (at level 61, right associativity) : py_scope.

(** ** The sync manager ([src/sync_manager.py]) *)

(** The dictionary [add_job] stores under a job's name. *)
Record Job : Type := mkJob {
  name : string;
  source_dir : string;
  dest_dir : string;
  options : list string;
  auto_sync : bool;
  interval : Z
}.

(** What [process.communicate()] does once the child has been launched:
    it raises, the child having exited by then with the status given or
    not having exited; or it returns the two captured texts and leaves the
    exit status in [process.returncode]. *)
Inductive communicate_result : Type :=
| CommunicateRaises (e : exn) (exited : option Z)
| CommunicateReturns (stdout stderr : string) (returncode : Z).

(** The object [subprocess.Popen] returns. *)
Record process : Type := mkProcess { communicate : communicate_result }.

(** The status the child exits with, when it does. *)
Definition exit_status (p : process) : option Z :=
  match communicate p with
  | CommunicateRaises _ exited => exited
  | CommunicateReturns _ _ returncode => Some returncode
  end.

(** The four Qt signals of the class, as the events they carry. *)
Inductive signal : Type :=
| sync_started (job : string)
| sync_finished (job : string) (success : bool)
| sync_progress (job : string) (percent : Z)
| sync_error (job : string) (message : string).

Definition cmdline := list string.

(** The object itself: [self.jobs] and [self.running_processes]. *)
Record SyncManager : Type := mkSyncManager {
  jobs : PyDict.t Job;
  running_processes : PyDict.t process
}.

(** A manager together with what it has done to the outside so far: the
    signals emitted and the command lines handed to [subprocess.Popen],
    oldest first. *)
Record runtime : Type := mkRuntime {
  manager : SyncManager;
  emitted : list signal;
  popen_calls : list cmdline
}.

(** The answers of the outside world.  Both may depend on the command
    lines launched before the question is asked. *)
Record environment : Type := mkEnvironment {
  os_path_exists : list cmdline -> string -> bool;
  subprocess_Popen : list cmdline -> cmdline -> outcome process
}.

(** [SyncManager.__init__] *)
Definition init : SyncManager :=
  {| jobs := PyDict.empty Job; running_processes := PyDict.empty process |}.

Definition default_options : list string := ["-av"; "--delete"].
Definition default_auto_sync : bool := false.
Definition default_interval : Z := 60.

(** [SyncManager.add_job]; [options = None] is the argument left out or
    passed as [None].  The defaults of the last two parameters are
    [default_auto_sync] and [default_interval]. *)
Definition add_job (name source_dir dest_dir : string)
    (options : option (list string)) (auto_sync : bool) (interval : Z)
    (self : SyncManager) : SyncManager :=
  let options := match options with
                 | None => default_options
                 | Some given => given
                 end in
  {| jobs := PyDict.set name
               {| name := name; source_dir := source_dir; dest_dir := dest_dir;
                  options := options; auto_sync := auto_sync;
                  interval := interval |}
               (jobs self);
     running_processes := running_processes self |}.

(** [SyncManager.remove_job] *)
Definition remove_job (name : string) (self : SyncManager) : SyncManager :=
  if PyDict.mem name (jobs self) then
    match PyDict.del name (jobs self) with
    | Some rest => {| jobs := rest; running_processes := running_processes self |}
    | None => self
    end
  else self.

(** [SyncManager.get_jobs] *)
Definition get_jobs (self : SyncManager) : PyDict.t Job := jobs self.

(** [SyncManager.clear_jobs] *)
Definition clear_jobs (self : SyncManager) : SyncManager :=
  {| jobs := PyDict.empty Job; running_processes := running_processes self |}.

(** [repr(s)] of a Python string: single quotes around the text, or
    double quotes when the text has a single quote and no double quote; a
    backslash before the quote in use and before a backslash; tab, line
    feed and carriage return as [\t], [\n] and [\r]; the other control
    characters and DEL as [\x] and two hexadecimal digits.  Bytes above
    127 belong to characters outside ASCII and are kept as they are
    (Python escapes those few of them that are not printable). *)
Definition single_quote : ascii := ascii_of_nat 39.
Definition double_quote : ascii := ascii_of_nat 34.
Definition backslash : ascii := ascii_of_nat 92.

Fixpoint contains (c : ascii) (s : string) : bool :=
  match s with
  | EmptyString => false
  | String c' rest => Ascii.eqb c c' || contains c rest
  end.

Definition hex_digit (n : nat) : ascii :=
  match n with
  | 0 => "0" | 1 => "1" | 2 => "2" | 3 => "3" | 4 => "4" | 5 => "5"
  | 6 => "6" | 7 => "7" | 8 => "8" | 9 => "9" | 10 => "a" | 11 => "b"
  | 12 => "c" | 13 => "d" | 14 => "e" | _ => "f"
  end%char.

Definition escape (quote c : ascii) : string :=
  let n := nat_of_ascii c in
  if Ascii.eqb c quote || Ascii.eqb c backslash then
    String backslash (String c EmptyString)
  else if Nat.eqb n 9 then String backslash "t"
  else if Nat.eqb n 10 then String backslash "n"
  else if Nat.eqb n 13 then String backslash "r"
  else if Nat.ltb n 32 || Nat.eqb n 127 then
    String backslash
      (String "x"%char
         (String (hex_digit (n / 16))
            (String (hex_digit (n mod 16)) EmptyString)))
  else String c EmptyString.

Fixpoint escape_all (quote : ascii) (s : string) : string :=
  match s with
  | EmptyString => EmptyString
  | String c rest => escape quote c ++ escape_all quote rest
  end.

Definition py_repr (s : string) : string :=
  let quote :=
    if contains single_quote s && negb (contains double_quote s)
    then double_quote else single_quote in
  String quote (escape_all quote s ++ String quote EmptyString).

(** [str(KeyError(k))] is the [repr] of the key. *)
Definition KeyError (k : string) : exn := Exn (py_repr k).

(** [signal.emit(...)] *)
Definition emit (ev : signal) : M runtime unit :=
  modify (fun rt => {| manager := manager rt;
                       emitted := emitted rt ++ [ev];
                       popen_calls := popen_calls rt |}).

(** [self.jobs[name]] *)
Definition jobs_getitem (name : string) : M runtime Job :=
  fun rt => match PyDict.get name (jobs (manager rt)) with
            | Some job => (Return job, rt)
            | None => (Raise (KeyError name), rt)
            end.

(** [self.running_processes[name] = process] *)
Definition running_setitem (name : string) (p : process) : M runtime unit :=
  modify (fun rt =>
    {| manager := {| jobs := jobs (manager rt);
                     running_processes :=
                       PyDict.set name p (running_processes (manager rt)) |};
       emitted := emitted rt;
       popen_calls := popen_calls rt |}).

(** [del self.running_processes[name]] *)
Definition running_delitem (name : string) : M runtime unit :=
  fun rt => match PyDict.del name (running_processes (manager rt)) with
            | Some rest =>
                (Return tt,
                 {| manager := {| jobs := jobs (manager rt);
                                  running_processes := rest |};
                    emitted := emitted rt;
                    popen_calls := popen_calls rt |})
            | None => (Raise (KeyError name), rt)
            end.

Section Runner.
Variable E : environment.

(** [os.path.exists(path)] *)
Definition path_exists (path : string) : M runtime bool :=
  fun rt => (Return (os_path_exists E (popen_calls rt) path), rt).

(** [subprocess.Popen(cmd, ...)]: the call is recorded whether or not
    the launch succeeds. *)
Definition Popen (cmd : cmdline) : M runtime process :=
  fun rt => (subprocess_Popen E (popen_calls rt) cmd,
             {| manager := manager rt;
                emitted := emitted rt;
                popen_calls := popen_calls rt ++ [cmd] |}).

(** [stdout, stderr = process.communicate()], with [process.returncode]
    read afterwards. *)
Definition process_communicate (p : process) : M runtime (string * string * Z) :=
  match communicate p with
  | CommunicateRaises e _ => raise e
  | CommunicateReturns out err rc => ret (out, err, rc)
  end.

(** The command line built at line 52. *)
Definition build_command (job : Job) : cmdline :=
  ["rsync"] ++ options job ++ [source_dir job; dest_dir job].

(** [SyncManager.start_sync] *)
Definition start_sync (name : string) : M runtime unit :=
  (rt <- get_state ;;
   if negb (PyDict.mem name (jobs (manager rt))) then
     emit (sync_error name "Sync job not found")
   else
     job <- jobs_getitem name ;;
     source_there <- path_exists (source_dir job) ;;
     if negb source_there then
       emit (sync_error name
               ("Source directory does not exist: " ++ source_dir job))
     else
       let cmd := build_command job in
       try_except
         (process <- Popen cmd ;;
          running_setitem name process ;;;
          emit (sync_started name) ;;;
          result <- process_communicate process ;;
          let '(stdout, stderr, returncode) := result in
          (if (returncode =? 0)%Z then
             emit (sync_finished name true)
           else
             emit (sync_error name stderr) ;;;
             emit (sync_finished name false)) ;;;
          running_delitem name)
         (fun e =>
            emit (sync_error name (str e)) ;;;
            emit (sync_finished name false)))%py.

(** [SyncManager.start_all_sync].  The loop walks the dictionary itself;
    [start_sync] never assigns to [self.jobs], so the names met are the
    keys the registry has when the loop starts. *)
Definition start_all_sync : M runtime unit :=
  (rt <- get_state ;;
   for_each (PyDict.keys (jobs (manager rt))) start_sync)%py.

End Runner.

(** The signals a call adds to those emitted before it. *)
Definition events_of (call : M runtime unit) (rt : runtime) : list signal :=
  skipn (List.length (emitted rt)) (emitted (snd (call rt))).

(** The command lines a call hands to [subprocess.Popen]. *)
Definition launches_of (call : M runtime unit) (rt : runtime) : list cmdline :=
  skipn (List.length (popen_calls rt)) (popen_calls (snd (call rt))).

Definition is_started (ev : signal) : bool :=
  match ev with sync_started _ => true | _ => false end.
Definition is_finished (ev : signal) : bool :=
  match ev with sync_finished _ _ => true | _ => false end.
Definition is_error (ev : signal) : bool :=
  match ev with sync_error _ _ => true | _ => false end.

Definition count_started (evs : list signal) : nat :=
  List.length (filter is_started evs).
Definition count_finished (evs : list signal) : nat :=
  List.length (filter is_finished evs).


(** No [sync_error] comes after a [sync_finished] in the trace. *)
Fixpoint errors_precede_finished (evs : list signal) : bool :=
  match evs with
  | [] => true
  | sync_finished _ _ :: rest =>
      negb (existsb is_error rest) && errors_precede_finished rest
  | _ :: rest => errors_precede_finished rest
  end.

(** ** The persisted configuration ([src/main.py], [src/config_dialog.py]) *)

(** A JSON object standing for one job, as [json.load] hands it to
    [load_config]: a field is [None] when its key is absent.  The
    [options] key may also be present with the value [null]. *)
Record job_record : Type := mkRecord {
  r_name : option string;
  r_source_dir : option string;
  r_dest_dir : option string;
  r_options : option (option (list string));
  r_auto_sync : option bool;
  r_interval : option Z
}.

(** An element met while iterating over the [sync_jobs] value: a JSON
    object, or a value of another Python type [ty] (which has no [get]). *)
Inductive entry : Type :=
| NotAnObject (ty : string)
| JobObject (r : job_record).

(** The value under the key [sync_jobs]: something a [for] loop cannot
    iterate over (a number, a boolean, [null]), or the sequence of elements
    the loop meets (a string yields its characters and an object its keys,
    all [NotAnObject "str"]). *)
Inductive sync_jobs_value : Type :=
| NotIterable (ty : string)
| Entries (elements : list entry).

(** What [json.load] returns: an object, of which only the key
    [sync_jobs] is read, or a value of another Python type [ty]. *)
Inductive document : Type :=
| NotADict (ty : string)
| Dict (sync_jobs : option sync_jobs_value).

(** The configuration file as [load_config] finds it. *)
Inductive config_file : Type :=
| Missing
| Unparsable (e : exn)
| Parsed (d : document).

(** The application and its surroundings: the one [SyncManager] object the
    application and the dialog share, the configuration file, the lines
    printed and the texts of the warning boxes shown. *)
Record session : Type := mkSession {
  sync_manager : SyncManager;
  config : config_file;
  printed : list string;
  warnings : list string
}.

(** Whether [os.makedirs] and [open(..., 'w')] fail, and with what. *)
Record io : Type := mkIo {
  makedirs_error : option exn;
  open_for_writing_error : option exn
}.

Definition AttributeError_get (ty : string) : exn :=
  Exn ("'" ++ ty ++ "' object has no attribute 'get'").
Definition TypeError_not_iterable (ty : string) : exn :=
  Exn ("'" ++ ty ++ "' object is not iterable").

(** [os.makedirs(os.path.dirname(self.config_file), exist_ok=True)] *)
Definition os_makedirs (w : io) : M session unit :=
  match makedirs_error w with
  | Some e => raise e
  | None => ret tt
  end.

(** [with open(self.config_file, 'r') as f: config = json.load(f)], for a
    file that exists. *)
Definition json_load (f : config_file) : M session document :=
  match f with
  | Parsed d => ret d
  | Unparsable e => raise e
  | Missing => raise (Exn "No such file or directory")
  end.

(** [config.get('sync_jobs', [])] *)
Definition config_get_sync_jobs (config : document) : M session sync_jobs_value :=
  match config with
  | NotADict ty => raise (AttributeError_get ty)
  | Dict None => ret (Entries [])
  | Dict (Some v) => ret v
  end.

(** The iteration the [for] statement starts on that value. *)
Definition iterate (v : sync_jobs_value) : M session (list entry) :=
  match v with
  | NotIterable ty => raise (TypeError_not_iterable ty)
  | Entries elements => ret elements
  end.

Definition on_manager (f : SyncManager -> SyncManager) : M session unit :=
  modify (fun s => {| sync_manager := f (sync_manager s);
                      config := config s;
                      printed := printed s;
                      warnings := warnings s |}).

(** [x.get(key, default)] on a key that is absent or present. *)
Definition get_default {A} (field : option A) (default : A) : A :=
  match field with Some v => v | None => default end.

(** The body of the loop at lines 100-108 of [main.py]. *)
Definition load_entry (job : entry) : M session unit :=
  match job with
  | NotAnObject ty => raise (AttributeError_get ty)
  | JobObject r =>
      on_manager (add_job (get_default (r_name r) "")
                          (get_default (r_source_dir r) "")
                          (get_default (r_dest_dir r) "")
                          (get_default (r_options r) (Some []))
                          (get_default (r_auto_sync r) false)
                          (get_default (r_interval r) 60%Z))
  end.

(** [print(text)] *)
Definition print (text : string) : M session unit :=
  modify (fun s => {| sync_manager := sync_manager s;
                      config := config s;
                      printed := printed s ++ [text];
                      warnings := warnings s |}).

(** [RsyncTrayApp.load_config] *)
Definition load_config (w : io) : M session unit :=
  try_except
    (os_makedirs w ;;;
     s <- get_state ;;
     match config s with
     | Missing => ret tt
     | file =>
         config <- json_load file ;;
         on_manager clear_jobs ;;;
         value <- config_get_sync_jobs config ;;
         elements <- iterate value ;;
         for_each elements load_entry
     end)%py
    (fun e => print ("Error loading config: " ++ str e)).

(** The part of [ConfigDialog] the save path uses: [self.jobs]. *)
Record ConfigDialog : Type := mkConfigDialog { dialog_jobs : PyDict.t Job }.

(** [ConfigDialog.__init__]: [self.jobs = sync_manager.get_jobs().copy()] *)
Definition ConfigDialog_init (sync_manager : SyncManager) : ConfigDialog :=
  {| dialog_jobs := PyDict.copy (get_jobs sync_manager) |}.

(** The JSON object [json.dump] writes for a stored job. *)
Definition record_of_job (job : Job) : job_record :=
  {| r_name := Some (name job);
     r_source_dir := Some (source_dir job);
     r_dest_dir := Some (dest_dir job);
     r_options := Some (Some (options job));
     r_auto_sync := Some (auto_sync job);
     r_interval := Some (interval job) |}.

(** The document [{'sync_jobs': [...]}] holding the given jobs in order. *)
Definition document_of_jobs (js : list Job) : document :=
  Dict (Some (Entries (map (fun job => JobObject (record_of_job job)) js))).

(** [with open(self.config_file, 'w') as f: json.dump(doc, f, indent=2)] *)
Definition json_dump (w : io) (doc : document) : M session unit :=
  match open_for_writing_error w with
  | Some e => raise e
  | None =>
      modify (fun s => {| sync_manager := sync_manager s;
                          config := Parsed doc;
                          printed := printed s;
                          warnings := warnings s |})
  end.

(** [QMessageBox.warning(self, "Error", text)] *)
Definition warning (text : string) : M session unit :=
  modify (fun s => {| sync_manager := sync_manager s;
                      config := config s;
                      printed := printed s;
                      warnings := warnings s ++ [text] |}).

(** [ConfigDialog.accept] *)
Definition accept (w : io) (self : ConfigDialog) : M session unit :=
  (on_manager clear_jobs ;;;
   for_each (dialog_jobs self)
     (fun item =>
        let '(job_name, job) := item in
        on_manager (add_job (name job) (source_dir job) (dest_dir job)
                            (Some (options job)) (auto_sync job)
                            (interval job))) ;;;
   try_except
     (os_makedirs w ;;;
      json_dump w (document_of_jobs (PyDict.values (dialog_jobs self))))
     (fun e => warning ("Failed to save config: " ++ str e)))%py.

(** Loading the configuration, opening the dialog on the loaded manager
    and pressing OK. *)
Definition load_then_save (w_load w_save : io) : M session unit :=
  (load_config w_load ;;;
   s <- get_state ;;
   accept w_save (ConfigDialog_init (sync_manager s)))%py.

(** Saving what is registered: the dialog is opened on the manager and
    closed with OK. *)
Definition save_registry (w : io) : M session unit :=
  (s <- get_state ;;
   accept w (ConfigDialog_init (sync_manager s)))%py.

(** The session after the configuration file has been replaced, or
    removed, from outside the application. *)
Definition with_config (file : config_file) (s : session) : session :=
  {| sync_manager := sync_manager s;
     config := file;
     printed := printed s;
     warnings := warnings s |}.


(** The signals of calling [start_sync] on each of the names in turn,
    every call starting in the state the previous one returned in: one
    block of signals per call. *)
Fixpoint run_blocks (E : environment) (names : list string) (rt : runtime)
  : list (list signal) :=
  match names with
  | [] => []
  | name :: rest =>
      events_of (start_sync E name) rt
      :: run_blocks E rest (snd (start_sync E name rt))
  end.

(** The configuration file is absent, or present and not readable as
    JSON. *)
Definition missing_or_unparsable (file : config_file) : bool :=
  match file with
  | Missing | Unparsable _ => true
  | Parsed _ => false
  end.

(** The call of [add_job] that [load_config] makes for a record with all
    six fields and that [accept] makes for a stored job. *)
Definition register (job : Job) (self : SyncManager) : SyncManager :=
  add_job (name job) (source_dir job) (dest_dir job) (Some (options job))
    (auto_sync job) (interval job) self.

(** The registry that holds the given jobs, each under its name, in the
    given order. *)
Definition registry_of (js : list Job) : PyDict.t Job :=
  map (fun job => (name job, job)) js.

(** ** Concrete situations used to exercise the definitions *)

(** Scenario A of the specification: one job "docs" with the default
    options, registered on a fresh manager. *)
Definition docs_manager : SyncManager :=
  add_job "docs" "/tmp/src" "/tmp/dst" None default_auto_sync default_interval
    init.

(** A manager that has emitted and launched nothing yet. *)
Definition fresh (self : SyncManager) : runtime :=
  {| manager := self; emitted := []; popen_calls := [] |}.

(** Every path exists (or none does) and every launch succeeds; the child
    writes [stderr] and exits with [returncode]. *)
Definition env_exit (source_there : bool) (returncode : Z) (stderr : string)
  : environment :=
  {| os_path_exists := fun _ _ => source_there;
     subprocess_Popen := fun _ _ =>
       Return {| communicate := CommunicateReturns "" stderr returncode |} |}.

(** Every path exists and no launch succeeds. *)
Definition env_launch_fails : environment :=
  {| os_path_exists := fun _ _ => true;
     subprocess_Popen := fun _ _ =>
       Raise (Exn "[Errno 2] No such file or directory: 'rsync'") |}.

(** Directories can be created and the file can be written. *)
Definition io_ok : io :=
  {| makedirs_error := None; open_for_writing_error := None |}.

(** A session around a manager and a configuration file. *)
Definition session_of (self : SyncManager) (file : config_file) : session :=
  {| sync_manager := self; config := file; printed := []; warnings := [] |}.

(** Two records with the same name. *)
Definition same_name_jobs : list Job :=
  [ {| name := "docs"; source_dir := "/tmp/src"; dest_dir := "/tmp/dst";
       options := ["-av"]; auto_sync := false; interval := 60 |};
    {| name := "docs"; source_dir := "/tmp/other"; dest_dir := "/tmp/dst";
       options := ["-av"]; auto_sync := false; interval := 60 |} ].

(** Two records with different names. *)
Definition two_jobs : list Job :=
  [ {| name := "docs"; source_dir := "/tmp/src"; dest_dir := "/tmp/dst";
       options := ["-av"]; auto_sync := true; interval := 30 |};
    {| name := "music"; source_dir := "/tmp/m"; dest_dir := "/tmp/n";
       options := ["-avz"; "--delete"]; auto_sync := false; interval := 60 |} ].

From Stdlib Require Import DecimalString.

(** ** Registries as the manager's methods build them *)

(** Every job is stored under its own name. *)
Definition keyed_by_name (d : PyDict.t Job) : Prop :=
  Forall (fun entry => name (snd entry) = fst entry) d.

(** What holds of a Python dictionary filled by [add_job]: no key occurs
    twice and every job sits under its name. *)
Definition well_formed (d : PyDict.t Job) : Prop :=
  NoDup (PyDict.keys d) /\ keyed_by_name d.

(** A call of one of the three methods that change [self.jobs]. *)
Inductive registry_call : Type :=
| CallAddJob (name source_dir dest_dir : string)
             (options : option (list string)) (auto_sync : bool)
             (interval : Z)
| CallRemoveJob (name : string)
| CallClearJobs.

Definition perform (call : registry_call) (self : SyncManager) : SyncManager :=
  match call with
  | CallAddJob name source_dir dest_dir options auto_sync interval =>
      add_job name source_dir dest_dir options auto_sync interval self
  | CallRemoveJob name => remove_job name self
  | CallClearJobs => clear_jobs self
  end.

(** The calls made one after the other, the first of the list first. *)
Definition perform_all (calls : list registry_call) (self : SyncManager)
  : SyncManager :=
  fold_left (fun m call => perform call m) calls self.
(** ** Reading signals *)

(** The job a signal is about (its first argument). *)
Definition signal_job (ev : signal) : string :=
  match ev with
  | sync_started job => job
  | sync_finished job _ => job
  | sync_progress job _ => job
  | sync_error job _ => job
  end.

Definition is_progress (ev : signal) : bool :=
  match ev with sync_progress _ _ => true | _ => false end.

(** The process a call of [start_sync] leaves without having waited for
    it to the end: the one it launched, when [communicate] raises. *)
Definition abandoned_process (E : environment) (name : string) (rt : runtime)
  : option process :=
  match PyDict.get name (jobs (manager rt)) with
  | None => None
  | Some job =>
      if os_path_exists E (popen_calls rt) (source_dir job) then
        match subprocess_Popen E (popen_calls rt) (build_command job) with
        | Raise _ => None
        | Return p =>
            match communicate p with
            | CommunicateRaises _ _ => Some p
            | CommunicateReturns _ _ _ => None
            end
        end
      else None
  end.

(** Every path exists and every launch succeeds; the child exits with
    status 0, but its output is not text and reading it fails. *)
Definition env_communicate_raises : environment :=
  {| os_path_exists := fun _ _ => true;
     subprocess_Popen := fun _ _ =>
       Return {| communicate :=
                   CommunicateRaises
                     (Exn "'utf-8' codec can't decode byte 0xff")
                     (Some 0%Z) |} |}.
(** ** The tray application ([src/main.py]) *)

(** The tray icon's tool tip and the manager at work. *)
Record tray_app : Type := mkTrayApp {
  tool_tip : string;
  app_runtime : runtime
}.

(** [self.tray_icon.setToolTip(text)] *)
Definition setToolTip (text : string) : M tray_app unit :=
  modify (fun app => {| tool_tip := text; app_runtime := app_runtime app |}).

(** A method of [self.sync_manager] called from the application. *)
Definition in_manager {A} (call : M runtime A) : M tray_app A :=
  fun app =>
    let (result, rt) := call (app_runtime app) in
    (result, {| tool_tip := tool_tip app; app_runtime := rt |}).

(** [RsyncTrayApp.sync_all] *)
Definition sync_all (E : environment) : M tray_app unit :=
  (setToolTip "Syncing..." ;;;
   app <- get_state ;;
   for_each (PyDict.keys (get_jobs (manager (app_runtime app))))
     (fun job_name => in_manager (start_sync E job_name)))%py.

(** A [QTimer] created by [setup_timers]: the job name its callback was
    given when it was connected, the period it was started with, in
    milliseconds, and whether it is running. *)
Record QTimer : Type := mkQTimer {
  timer_job : string;
  timer_interval : Z;
  timer_active : bool
}.

(** The part of the [QApplication] object the timers live in: every timer
    created with the application as parent, oldest first, and the
    attribute [_timers], a list of references to some of them (positions
    in [children]); the attribute does not exist before the first call of
    [setup_timers]. *)
Record QApplication : Type := mkQApplication {
  children : list QTimer;
  _timers : option (list nat)
}.

(** [timer.stop()] on the timer at a position. *)
Fixpoint stop_timer (position : nat) (timers : list QTimer) : list QTimer :=
  match timers, position with
  | [], _ => []
  | t :: rest, O =>
      {| timer_job := timer_job t; timer_interval := timer_interval t;
         timer_active := false |} :: rest
  | t :: rest, S position' => t :: stop_timer position' rest
  end.

(** Lines 120-126: the timer made for one entry of the registry, if any.
    [QTimer.start] takes a C [int]; the period is modelled for values in
    that range. *)
Definition add_timer (app : QApplication) (item : string * Job)
  : QApplication :=
  let '(job_name, job) := item in
  if auto_sync job && (interval job >? 0)%Z then
    {| children :=
         children app ++
         [ {| timer_job := job_name;
              timer_interval := (interval job * 60 * 1000)%Z;
              timer_active := true |} ];
       _timers :=
         Some (match _timers app with Some refs => refs | None => [] end
               ++ [List.length (children app)]) |}
  else app.

(** [RsyncTrayApp.setup_timers], given the registry [get_jobs()] returns. *)
Definition setup_timers (registry : PyDict.t Job) (app : QApplication)
  : QApplication :=
  let stopped :=
    fold_left (fun timers position => stop_timer position timers)
      (match _timers app with Some refs => refs | None => [] end)
      (children app) in
  fold_left add_timer registry
    {| children := stopped; _timers := Some [] |}.

(** The timers [app._timers] refers to. *)
Definition tracked_timers (app : QApplication) : list QTimer :=
  flat_map (fun position =>
              match nth_error (children app) position with
              | Some t => [t]
              | None => []
              end)
           (match _timers app with Some refs => refs | None => [] end).

(** The timers that are running, tracked or not. *)
Definition running_timers (app : QApplication) : list QTimer :=
  filter timer_active (children app).

(** Every running timer is one [app._timers] refers to. *)
Definition no_stray_timer (app : QApplication) : Prop :=
  forall (position : nat) (t : QTimer),
    nth_error (children app) position = Some t ->
    timer_active t = true ->
    In position (match _timers app with Some refs => refs | None => [] end).

(** The timer a registry entry asks for. *)
Definition timer_of (item : string * Job) : QTimer :=
  {| timer_job := fst item;
     timer_interval := (interval (snd item) * 60000)%Z;
     timer_active := true |}.

Definition wants_timer (item : string * Job) : bool :=
  auto_sync (snd item) && (0 <? interval (snd item))%Z.

(** The job [load_config] registers for a JSON object: absent fields take
    the defaults of the [get] calls, and an [options] field that is
    [null] takes the default options of [add_job]. *)
Definition job_of_record (r : job_record) : Job :=
  {| name := get_default (r_name r) "";
     source_dir := get_default (r_source_dir r) "";
     dest_dir := get_default (r_dest_dir r) "";
     options := match get_default (r_options r) (Some []) with
                | Some given => given
                | None => default_options
                end;
     auto_sync := get_default (r_auto_sync r) false;
     interval := get_default (r_interval r) 60%Z |}.

(** Lines 75-76 of [main.py] once the dialog has been closed with OK:
    [accept] has run inside [dialog.exec()], then the configuration is
    loaded again. *)
Definition accept_then_reload (w_save w_load : io) (dialog : ConfigDialog)
  : M session unit :=
  (accept w_save dialog ;;; load_config w_load)%py.

(** The period of the timer an entry asks for fits the C [int] that
    [QTimer.start] takes. *)
Definition period_fits (item : string * Job) : Prop :=
  wants_timer item = true -> (interval (snd item) * 60000 <= 2147483647)%Z.

(** A registry with one job to be synchronised every 30 minutes and one
    without a schedule. *)
Definition scheduled_registry : PyDict.t Job := registry_of two_jobs.

(** What [load_config] leaves alone between two sessions: the
    configuration file, the warning boxes, the lines printed so far and
    the processes the manager keeps track of; and a registry that was well
    formed still is. *)
Definition load_frame (s s' : session) : Prop :=
  config s' = config s /\
  warnings s' = warnings s /\
  printed s' = printed s /\
  running_processes (sync_manager s') = running_processes (sync_manager s) /\
  (well_formed (jobs (sync_manager s)) ->
   well_formed (jobs (sync_manager s'))).

(** The exception the write in [accept] ends with, if any:
    [os.makedirs] is tried first, then [open]. *)
Definition save_error (w : io) : option exn :=
  match makedirs_error w with
  | Some e => Some e
  | None => open_for_writing_error w
  end.

(** The directory exists but the file cannot be opened for writing. *)
Definition io_read_only : io :=
  {| makedirs_error := None;
     open_for_writing_error :=
       Some (Exn "[Errno 13] Permission denied: 'config.json'") |}.
(** ** The dialog window ([src/config_dialog.py]) *)

(** A [QListWidgetItem]: its text and the job name kept as user data. *)
Record list_item : Type := mkItem {
  item_text : string;
  item_data : string
}.

(** A message box shown to the user. *)
Inductive message_box : Type :=
| WarningBox (title text : string)
| InformationBox (title text : string).

(** The dialog while it is open: [self.jobs], the items of
    [self.job_list], the row of its current item and the message boxes
    shown so far.  The widgets of the detail pane are not part of it:
    [save_job] takes what they hold as an argument. *)
Record dialog_window : Type := mkWindow {
  dialog : ConfigDialog;
  job_list : list list_item;
  current_row : option nat;
  message_boxes : list message_box
}.

(** What the widgets of the detail pane hold when [save_job] reads them. *)
Record form : Type := mkForm {
  name_edit : string;
  source_edit : string;
  dest_edit : string;
  options_edit : string;
  auto_sync_box : bool;
  interval_box : Z
}.

(** [ConfigDialog.__init__] with [populate_job_list]: one item per job of
    the manager, none of them current. *)
Definition open_dialog (sync_manager : SyncManager) : dialog_window :=
  {| dialog := ConfigDialog_init sync_manager;
     job_list :=
       map (fun name => {| item_text := name; item_data := name |})
           (PyDict.keys (dialog_jobs (ConfigDialog_init sync_manager)));
     current_row := None;
     message_boxes := [] |}.

(** [self.job_list.currentItem()], with its row. *)
Definition currentItem (w : dialog_window) : option (nat * list_item) :=
  match current_row w with
  | None => None
  | Some row =>
      match nth_error (job_list w) row with
      | Some item => Some (row, item)
      | None => None
      end
  end.

(** [f"Job-{n}"] *)
Definition job_label (n : nat) : string :=
  "Job-" ++ NilEmpty.string_of_uint (Nat.to_uint n).

(** The record [ConfigDialog.add_job] stores. *)
Definition blank_job (job_name : string) : Job :=
  {| name := job_name; source_dir := ""; dest_dir := "";
     options := ["-av"; "--delete"]; auto_sync := false; interval := 60 |}.

(** [ConfigDialog.add_job] *)
Definition dialog_add_job (w : dialog_window) : dialog_window :=
  let job_name := job_label (List.length (dialog_jobs (dialog w)) + 1) in
  {| dialog :=
       {| dialog_jobs :=
            PyDict.set job_name (blank_job job_name) (dialog_jobs (dialog w)) |};
     job_list :=
       job_list w ++ [ {| item_text := job_name; item_data := job_name |} ];
     current_row := Some (List.length (job_list w));
     message_boxes := message_boxes w |}.

(** [QMessageBox.warning(self, title, text)] and
    [QMessageBox.information(self, title, text)] *)
Definition show_box (box : message_box) : M dialog_window unit :=
  modify (fun w => {| dialog := dialog w;
                      job_list := job_list w;
                      current_row := current_row w;
                      message_boxes := message_boxes w ++ [box] |}).

(** [del self.jobs[name]] *)
Definition dialog_delitem (job_name : string) : M dialog_window unit :=
  fun w => match PyDict.del job_name (dialog_jobs (dialog w)) with
           | Some rest =>
               (Return tt,
                {| dialog := {| dialog_jobs := rest |};
                   job_list := job_list w;
                   current_row := current_row w;
                   message_boxes := message_boxes w |})
           | None => (Raise (KeyError job_name), w)
           end.

(** [self.jobs[name] = job] *)
Definition dialog_setitem (job_name : string) (job : Job)
  : M dialog_window unit :=
  modify (fun w =>
    {| dialog :=
         {| dialog_jobs := PyDict.set job_name job (dialog_jobs (dialog w)) |};
       job_list := job_list w;
       current_row := current_row w;
       message_boxes := message_boxes w |}).

(** The list with the element at a position replaced. *)
Fixpoint replace_nth {A} (position : nat) (x : A) (xs : list A) : list A :=
  match xs, position with
  | [], _ => []
  | _ :: rest, O => x :: rest
  | y :: rest, S position' => y :: replace_nth position' x rest
  end.

(** [current.setText(text)] and [current.setData(UserRole, text)] on the
    item at a row. *)
Definition rename_item (row : nat) (text : string) : M dialog_window unit :=
  modify (fun w =>
    {| dialog := dialog w;
       job_list :=
         replace_nth row {| item_text := text; item_data := text |}
           (job_list w);
       current_row := current_row w;
       message_boxes := message_boxes w |}).

Section SaveJob.
(** Python's [str.strip] and [str.split] without arguments. *)
Variable str_strip : string -> string.
Variable str_split : string -> list string.

(** The options [save_job] reads from the options field. *)
Definition form_options (f : form) : list string :=
  let options_text := str_strip (options_edit f) in
  if String.eqb options_text "" then ["-av"; "--delete"]
  else str_split options_text.

(** The record [save_job] builds from the detail pane. *)
Definition form_job (f : form) : Job :=
  {| name := name_edit f;
     source_dir := source_edit f;
     dest_dir := dest_edit f;
     options := form_options f;
     auto_sync := auto_sync_box f;
     interval := interval_box f |}.

(** [ConfigDialog.save_job] *)
Definition save_job (f : form) : M dialog_window unit :=
  (w <- get_state ;;
   match currentItem w with
   | None => ret tt
   | Some (row, current) =>
       let old_name := item_data current in
       let new_name := name_edit f in
       if String.eqb new_name "" then
         show_box (WarningBox "Error" "Job name cannot be empty")
       else
         let job := form_job f in
         if String.eqb (source_dir job) "" || String.eqb (dest_dir job) "" then
           show_box (WarningBox "Error"
                       "Source and destination directories are required")
         else
           (if negb (String.eqb old_name new_name) then
              dialog_delitem old_name ;;;
              rename_item row new_name
            else ret tt) ;;;
           dialog_setitem new_name job ;;;
           show_box (InformationBox "Success"
                       ("Job '" ++ new_name ++ "' saved"))
   end)%py.

End SaveJob.

(** The list without the element at a position. *)
Fixpoint remove_nth {A} (position : nat) (xs : list A) : list A :=
  match xs, position with
  | [], _ => []
  | _ :: rest, O => rest
  | y :: rest, S position' => y :: remove_nth position' rest
  end.

(** [self.job_list.takeItem(row)]; which item the list makes current
    afterwards is Qt's choice and is given as [next]. *)
Definition takeItem (row : nat) (next : option nat) : M dialog_window unit :=
  modify (fun w =>
    {| dialog := dialog w;
       job_list := remove_nth row (job_list w);
       current_row := next;
       message_boxes := message_boxes w |}).

(** [ConfigDialog.remove_job]; [confirmed] is the user answering Yes to
    the question box. *)
Definition dialog_remove_job (confirmed : bool) (next : option nat)
  : M dialog_window unit :=
  (w <- get_state ;;
   match currentItem w with
   | None => ret tt
   | Some (row, current) =>
       let job_name := item_data current in
       if confirmed then
         dialog_delitem job_name ;;;
         takeItem row next
       else ret tt
   end)%py.

(** A dialog opened on a manager whose only job is called "Job-2". *)
Definition job2_window : dialog_window :=
  open_dialog (add_job "Job-2" "/tmp/src" "/tmp/dst" (Some ["-a"]) true 15
                 init).

(** A detail pane filled in completely, and one without a source. *)
Definition filled_form : form :=
  {| name_edit := "photos"; source_edit := "/home/p"; dest_edit := "/mnt/p";
     options_edit := "-a"; auto_sync_box := true; interval_box := 10 |}.
Definition form_without_source : form :=
  {| name_edit := "photos"; source_edit := ""; dest_edit := "/mnt/p";
     options_edit := "-a"; auto_sync_box := true; interval_box := 10 |}.

(** The job of the dialog selected in the list. *)
Definition select_row (row : nat) (w : dialog_window) : dialog_window :=
  {| dialog := dialog w; job_list := job_list w; current_row := Some row;
     message_boxes := message_boxes w |}.

(** The dialog on "Job-2" after Add (which reuses the label "Job-2" and
    adds a second item for it) and after the first item has been renamed
    to "photos"; the second item, still called "Job-2", is selected. *)
Definition stale_item_window : dialog_window :=
  select_row 1
    (snd (save_job (fun s => s) (fun s => [s]) filled_form
            (select_row 0 (dialog_add_job job2_window)))).

(** * Properties *)

(** ** Facts about Python dictionaries *)

Module PyDictFacts.
Import PyDict.
Section Facts.
Variable V : Type.
Implicit Types (d : t V) (k : string) (v : V).

Lemma get_set_same k v d : get k (set k v d) = Some v.
Proof.
  induction d as [|[k' v'] rest IH]; simpl.
  - now rewrite String.eqb_refl.
  - destruct (String.eqb k k') eqn:E; simpl; rewrite ?E, ?String.eqb_refl; auto.
Qed.

Lemma get_set_other k k' v d : k <> k' -> get k' (set k v d) = get k' d.
Proof.
  intros Hne. induction d as [|[k0 v0] rest IH]; simpl.
  - destruct (String.eqb_spec k' k); congruence.
  - destruct (String.eqb_spec k k0); simpl.
    + subst k0. destruct (String.eqb_spec k' k); congruence.
    + destruct (String.eqb k' k0); auto.
Qed.

Lemma mem_set_same k v d : mem k (set k v d) = true.
Proof. unfold mem. now rewrite get_set_same. Qed.

Lemma keys_set_present k v d : mem k d = true -> keys (set k v d) = keys d.
Proof.
  unfold mem, keys. induction d as [|[k' v'] rest IH]; simpl; [discriminate|].
  destruct (String.eqb_spec k k'); simpl; intros H.
  - now subst.
  - f_equal. auto.
Qed.

Lemma set_absent k v d : mem k d = false -> set k v d = d ++ [(k, v)].
Proof.
  unfold mem. induction d as [|[k' v'] rest IH]; simpl; auto.
  destruct (String.eqb k k'); [discriminate|]. intros H. f_equal. auto.
Qed.

Lemma mem_app_l k d d' : mem k d = true -> mem k (d ++ d') = true.
Proof.
  unfold mem. induction d as [|[k' v'] rest IH]; simpl; [discriminate|].
  destruct (String.eqb k k'); auto.
Qed.

Lemma mem_false_not_In k d : mem k d = false -> ~ In k (keys d).
Proof.
  unfold mem, keys. induction d as [|[k' v'] rest IH]; simpl; auto.
  destruct (String.eqb_spec k k'); [discriminate|].
  intros H [Heq|Hin]; [congruence | now apply IH].
Qed.

Lemma not_In_mem_false k d : ~ In k (keys d) -> mem k d = false.
Proof.
  unfold mem, keys. induction d as [|[k' v'] rest IH]; simpl; auto.
  intros H. destruct (String.eqb_spec k k').
  - exfalso. apply H. left. congruence.
  - apply IH. tauto.
Qed.

Lemma del_set_present k v d : del k (set k v d) <> None.
Proof.
  induction d as [|[k' v'] rest IH]; simpl.
  - now rewrite String.eqb_refl.
  - destruct (String.eqb k k') eqn:E; simpl; rewrite ?E, ?String.eqb_refl;
      [discriminate|].
    destruct (del k (set k v rest)); [discriminate | contradiction].
Qed.
Lemma In_keys_get k d : In k (keys d) -> exists v, get k d = Some v.
Proof.
  unfold keys. induction d as [|[k' v'] rest IH]; simpl; [contradiction|].
  intros H. destruct (String.eqb_spec k k'); [eauto|].
  destruct H as [H|H]; [congruence | auto].
Qed.

End Facts.
End PyDictFacts.

(** ** The runner, path by path *)

Section RunnerFacts.
Variable E : environment.

Lemma events_of_app (call : M runtime unit) rt evs :
  emitted (snd (call rt)) = emitted rt ++ evs -> events_of call rt = evs.
Proof.
  unfold events_of. intros ->.
  rewrite skipn_app, skipn_all, Nat.sub_diag. reflexivity.
Qed.

Lemma launches_of_app (call : M runtime unit) rt cmds :
  popen_calls (snd (call rt)) = popen_calls rt ++ cmds ->
  launches_of call rt = cmds.
Proof.
  unfold launches_of. intros ->.
  rewrite skipn_app, skipn_all, Nat.sub_diag. reflexivity.
Qed.

(** What one call of [start_sync] does, on each of its paths: it returns
    normally, leaves [self.jobs] alone, and extends the two traces as the
    path taken says. *)
Lemma start_sync_cases name rt :
  let r := start_sync E name rt in
  fst r = Return tt /\
  jobs (manager (snd r)) = jobs (manager rt) /\
  match PyDict.get name (jobs (manager rt)) with
  | None =>
      emitted (snd r) = emitted rt ++ [sync_error name "Sync job not found"] /\
      popen_calls (snd r) = popen_calls rt ++ []
  | Some job =>
      if os_path_exists E (popen_calls rt) (source_dir job) then
        popen_calls (snd r) = popen_calls rt ++ [build_command job] /\
        match subprocess_Popen E (popen_calls rt) (build_command job) with
        | Raise e =>
            emitted (snd r) =
            emitted rt ++ [sync_error name (str e); sync_finished name false]
        | Return p =>
            match communicate p with
            | CommunicateRaises e _ =>
                emitted (snd r) =
                emitted rt ++ [sync_started name; sync_error name (str e);
                               sync_finished name false]
            | CommunicateReturns _ stderr returncode =>
                if (returncode =? 0)%Z then
                  emitted (snd r) =
                  emitted rt ++ [sync_started name; sync_finished name true]
                else
                  emitted (snd r) =
                  emitted rt ++ [sync_started name; sync_error name stderr;
                                 sync_finished name false]
            end
        end
      else
        emitted (snd r) =
        emitted rt ++ [sync_error name
                         ("Source directory does not exist: " ++ source_dir job)] /\
        popen_calls (snd r) = popen_calls rt ++ []
  end.
Proof.
  destruct rt as [[js rp] evs calls].
  unfold start_sync, bind, get_state, jobs_getitem, path_exists, PyDict.mem,
    try_except, Popen, running_setitem, emit, modify, process_communicate,
    running_delitem, raise, ret.
  cbn -[build_command].
  destruct (PyDict.get name js) as [job|] eqn:Hget;
    cbn -[build_command]; rewrite ?Hget; cbn -[build_command].
  2: { rewrite app_nil_r. auto. }
  destruct (os_path_exists E calls (source_dir job)) eqn:Hsrc;
    cbn -[build_command].
  2: { rewrite app_nil_r. auto. }
  destruct (subprocess_Popen E calls (build_command job)) as [p|e] eqn:Hp;
    cbn -[build_command].
  2: { rewrite <- !app_assoc. cbn -[build_command]. auto. }
  destruct (communicate p) as [e exited|out err rc] eqn:Hc; cbn -[build_command].
  { rewrite <- !app_assoc. cbn -[build_command]. auto. }
  destruct (rc =? 0)%Z; cbn -[build_command];
    (destruct (PyDict.del name (PyDict.set name p rp)) eqn:Hdel;
     [| exfalso; exact (PyDictFacts.del_set_present _ _ _ Hdel)]);
    cbn -[build_command]; rewrite <- ?app_assoc; cbn -[build_command]; auto.
Qed.

End RunnerFacts.

(** ** One call of [start_sync] *)


(** C3: a call on a name that is not registered emits the single signal
    [sync_error name "Sync job not found"]; a call on a registered job
    whose source path does not exist emits the single signal
    [sync_error name "Source directory does not exist: <source_dir>"]; in
    both cases nothing is handed to [subprocess.Popen] and no
    [sync_started] or [sync_finished] is emitted. *)
Theorem start_sync_rejected :
  forall (E : environment) (name : string) (rt : runtime),
    (PyDict.mem name (jobs (manager rt)) = false ->
     events_of (start_sync E name) rt =
       [sync_error name "Sync job not found"] /\
     launches_of (start_sync E name) rt = [] /\
     count_started (events_of (start_sync E name) rt) = 0 /\
     count_finished (events_of (start_sync E name) rt) = 0) /\
    (forall job : Job,
       PyDict.get name (jobs (manager rt)) = Some job ->
       os_path_exists E (popen_calls rt) (source_dir job) = false ->
       events_of (start_sync E name) rt =
         [sync_error name
            ("Source directory does not exist: " ++ source_dir job)] /\
       launches_of (start_sync E name) rt = [] /\
       count_started (events_of (start_sync E name) rt) = 0 /\
       count_finished (events_of (start_sync E name) rt) = 0).
Proof.
  intros E name rt.
  pose proof (start_sync_cases E name rt) as (_ & _ & H).
  split.
  - unfold PyDict.mem. intros Hmem.
    destruct (PyDict.get name (jobs (manager rt))); [discriminate|].
    destruct H as [Hev Hcalls].
    rewrite (@events_of_app _ _ _ Hev), (@launches_of_app _ _ _ Hcalls).
    repeat split.
  - intros job Hget Hsrc. rewrite Hget, Hsrc in H.
    destruct H as [Hev Hcalls].
    rewrite (@events_of_app _ _ _ Hev), (@launches_of_app _ _ _ Hcalls).
    repeat split.
Qed.

Lemma start_sync_rejected_witness :
  events_of (start_sync (env_exit true 0 "") "photos") (fresh docs_manager) =
    [sync_error "photos" "Sync job not found"] /\
  events_of (start_sync (env_exit false 0 "") "docs") (fresh docs_manager) =
    [sync_error "docs" "Source directory does not exist: /tmp/src"].
Proof.
  split.
  - apply (proj1 (start_sync_rejected (env_exit true 0 "") "photos"
                    (fresh docs_manager))).
    reflexivity.
  - apply (proj2 (start_sync_rejected (env_exit false 0 "") "docs"
                    (fresh docs_manager))
             {| name := "docs"; source_dir := "/tmp/src";
                dest_dir := "/tmp/dst"; options := default_options;
                auto_sync := false; interval := 60 |});
      reflexivity.
Defined.

(** C2, as stated, fails for a child that exits with status 0 while its
    output cannot be read: the job is registered, its source path exists
    and the process launches, yet [communicate] raises, the exit status is
    never looked at, and the signals are a start, an error carrying the
    exception text and [sync_finished false], not
    [sync_started; sync_finished true]. *)
Lemma start_sync_exit_zero_unreadable_output :
  PyDict.mem "docs" (jobs (manager (fresh docs_manager))) = true /\
  os_path_exists env_communicate_raises [] "/tmp/src" = true /\
  (exists p : process,
     subprocess_Popen env_communicate_raises []
       ["rsync"; "-av"; "--delete"; "/tmp/src"; "/tmp/dst"] = Return p /\
     exit_status p = Some 0%Z) /\
  events_of (start_sync env_communicate_raises "docs") (fresh docs_manager)
  = [sync_started "docs";
     sync_error "docs" "'utf-8' codec can't decode byte 0xff";
     sync_finished "docs" false] /\
  events_of (start_sync env_communicate_raises "docs") (fresh docs_manager)
  <> [sync_started "docs"; sync_finished "docs" true].
Proof.
  split; [reflexivity|]. split; [reflexivity|]. split.
  - eexists. split; reflexivity.
  - split; [reflexivity|]. vm_compute. discriminate.
Qed.

(** C2, amended: when the job is registered, its source path exists, the
    process launches and [communicate] returns, the signals of the call
    are exactly [sync_started; sync_finished true] for exit status 0 and
    exactly [sync_started; sync_error stderr; sync_finished false] for any
    other exit status. *)
Theorem start_sync_exit_status :
  forall (E : environment) (name : string) (rt : runtime) (job : Job)
         (p : process) (stdout stderr : string) (returncode : Z),
    PyDict.get name (jobs (manager rt)) = Some job ->
    os_path_exists E (popen_calls rt) (source_dir job) = true ->
    subprocess_Popen E (popen_calls rt)
      ("rsync" :: options job ++ [source_dir job; dest_dir job]) = Return p ->
    communicate p = CommunicateReturns stdout stderr returncode ->
    events_of (start_sync E name) rt =
      if (returncode =? 0)%Z
      then [sync_started name; sync_finished name true]
      else [sync_started name; sync_error name stderr;
            sync_finished name false].
Proof.
  intros E name rt job p out err rc Hget Hsrc Hp Hc.
  pose proof (start_sync_cases E name rt) as (_ & _ & H).
  rewrite Hget, Hsrc in H. destruct H as [_ H].
  change (build_command job)
    with ("rsync" :: options job ++ [source_dir job; dest_dir job]) in H.
  rewrite Hp, Hc in H.
  destruct (rc =? 0)%Z; apply events_of_app; exact H.
Qed.

Lemma start_sync_exit_status_witness :
  events_of (start_sync (env_exit true 13 "Permission denied") "docs")
    (fresh docs_manager) =
  [sync_started "docs"; sync_error "docs" "Permission denied";
   sync_finished "docs" false].
Proof.
  exact (start_sync_exit_status (env_exit true 13 "Permission denied") "docs"
           (fresh docs_manager)
           (job := {| name := "docs"; source_dir := "/tmp/src";
                      dest_dir := "/tmp/dst"; options := default_options;
                      auto_sync := false; interval := 60 |})
           (p := {| communicate :=
                      CommunicateReturns "" "Permission denied" 13 |})
           (stdout := "") (stderr := "Permission denied") (returncode := 13)
           eq_refl eq_refl eq_refl eq_refl).
Defined.

(** C4: a call that passes both checks hands exactly one command line to
    [subprocess.Popen]: "rsync", then the job's options in order, then the
    source path, then the destination path, so that the destination is
    the last argument and the source the one before it. *)
Theorem start_sync_command_line :
  forall (E : environment) (name : string) (rt : runtime) (job : Job),
    PyDict.get name (jobs (manager rt)) = Some job ->
    os_path_exists E (popen_calls rt) (source_dir job) = true ->
    exists cmd : cmdline,
      launches_of (start_sync E name) rt = [cmd] /\
      cmd = ["rsync"] ++ options job ++ [source_dir job; dest_dir job] /\
      nth_error (rev cmd) 0 = Some (dest_dir job) /\
      nth_error (rev cmd) 1 = Some (source_dir job).
Proof.
  intros E name rt job Hget Hsrc.
  pose proof (start_sync_cases E name rt) as (_ & _ & H).
  rewrite Hget, Hsrc in H. destruct H as [Hcalls _].
  exists (build_command job). split; [|split].
  - apply launches_of_app. exact Hcalls.
  - reflexivity.
  - unfold build_command. cbn [app]. rewrite app_comm_cons, rev_app_distr.
    split; reflexivity.
Qed.

Lemma start_sync_command_line_witness :
  exists cmd : cmdline,
    launches_of (start_sync (env_exit true 0 "") "docs") (fresh docs_manager)
      = [cmd] /\
    cmd = ["rsync"; "-av"; "--delete"; "/tmp/src"; "/tmp/dst"].
Proof.
  destruct (start_sync_command_line (env_exit true 0 "") "docs"
              (fresh docs_manager)
              (job := {| name := "docs"; source_dir := "/tmp/src";
                         dest_dir := "/tmp/dst"; options := default_options;
                         auto_sync := false; interval := 60 |})
              eq_refl eq_refl) as (cmd & Hl & Hc & _).
  exists cmd. split; [exact Hl | exact Hc].
Defined.

(** C1, as stated, fails where the launch fails: the job is registered and
    its source path exists, yet the call emits no [sync_started] at all,
    only the error and the terminal [sync_finished false]. *)
Lemma start_sync_launch_failure_has_no_started :
  PyDict.mem "docs" (jobs (manager (fresh docs_manager))) = true /\
  os_path_exists env_launch_fails [] "/tmp/src" = true /\
  events_of (start_sync env_launch_fails "docs") (fresh docs_manager) =
    [sync_error "docs" "[Errno 2] No such file or directory: 'rsync'";
     sync_finished "docs" false] /\
  count_started
    (events_of (start_sync env_launch_fails "docs") (fresh docs_manager)) <> 1.
Proof.
  repeat split; try reflexivity. vm_compute. discriminate.
Qed.

(** C1, amended: a call on a registered job whose source path exists emits
    exactly one [sync_finished], as its last signal, and no [sync_error]
    after it.  When the process launches the signals are
    [sync_started; sync_finished true] or
    [sync_started; sync_error _; sync_finished false], hence exactly one
    [sync_started]; when the launch raises they are
    [sync_error <exception text>; sync_finished false], hence no
    [sync_started]. *)
Theorem start_sync_registered_events :
  forall (E : environment) (name : string) (rt : runtime) (job : Job),
    PyDict.get name (jobs (manager rt)) = Some job ->
    os_path_exists E (popen_calls rt) (source_dir job) = true ->
    let evs := events_of (start_sync E name) rt in
    count_finished evs = 1 /\
    errors_precede_finished evs = true /\
    match subprocess_Popen E (popen_calls rt)
            ("rsync" :: options job ++ [source_dir job; dest_dir job]) with
    | Return _ =>
        count_started evs = 1 /\
        (evs = [sync_started name; sync_finished name true] \/
         exists message : string,
           evs = [sync_started name; sync_error name message;
                  sync_finished name false])
    | Raise e =>
        count_started evs = 0 /\
        evs = [sync_error name (str e); sync_finished name false]
    end.
Proof.
  intros E name rt job Hget Hsrc evs. subst evs.
  pose proof (start_sync_cases E name rt) as (_ & _ & H).
  rewrite Hget, Hsrc in H. destruct H as [_ H].
  change (build_command job)
    with ("rsync" :: options job ++ [source_dir job; dest_dir job]) in H.
  destruct (subprocess_Popen E (popen_calls rt)
              ("rsync" :: options job ++ [source_dir job; dest_dir job]))
    as [p|e].
  - destruct (communicate p) as [e exited|out err rc].
    + rewrite (@events_of_app _ _ _ H). repeat split. right. now exists (str e).
    + destruct (rc =? 0)%Z; rewrite (@events_of_app _ _ _ H); repeat split.
      * now left.
      * right. now exists err.
  - rewrite (@events_of_app _ _ _ H). repeat split.
Qed.

Lemma start_sync_registered_events_witness :
  count_finished
    (events_of (start_sync env_launch_fails "docs") (fresh docs_manager)) = 1 /\
  count_finished
    (events_of (start_sync (env_exit true 0 "") "docs") (fresh docs_manager))
    = 1.
Proof.
  split.
  - exact (proj1 (start_sync_registered_events env_launch_fails "docs"
                    (fresh docs_manager)
                    (job := {| name := "docs"; source_dir := "/tmp/src";
                               dest_dir := "/tmp/dst";
                               options := default_options;
                               auto_sync := false; interval := 60 |})
                    eq_refl eq_refl)).
  - exact (proj1 (start_sync_registered_events (env_exit true 0 "") "docs"
                    (fresh docs_manager)
                    (job := {| name := "docs"; source_dir := "/tmp/src";
                               dest_dir := "/tmp/dst";
                               options := default_options;
                               auto_sync := false; interval := 60 |})
                    eq_refl eq_refl)).
Defined.

(** ** The registry *)

(** C9: [add_job] under a name that is already registered replaces the
    stored record by the one built from the call's arguments alone, keeps
    the name's place in the registry without adding a second entry, and
    leaves every other job as it was. *)
Theorem add_job_replaces :
  forall (self : SyncManager) (name source_dir dest_dir : string)
         (options : option (list string)) (auto_sync : bool) (interval : Z),
    PyDict.mem name (jobs self) = true ->
    let self' := add_job name source_dir dest_dir options auto_sync interval
                   self in
    PyDict.get name (jobs self') =
      Some {| name := name; source_dir := source_dir; dest_dir := dest_dir;
              options := match options with
                         | None => ["-av"; "--delete"]
                         | Some given => given
                         end;
              auto_sync := auto_sync; interval := interval |} /\
    PyDict.keys (jobs self') = PyDict.keys (jobs self) /\
    forall other : string,
      other <> name ->
      PyDict.get other (jobs self') = PyDict.get other (jobs self).
Proof.
  intros self n s d o a i Hmem. cbn. split; [|split].
  - rewrite PyDictFacts.get_set_same. now destruct o.
  - now apply PyDictFacts.keys_set_present.
  - intros other Hne. apply PyDictFacts.get_set_other. congruence.
Qed.

Lemma add_job_replaces_witness :
  PyDict.get "docs"
    (jobs (add_job "docs" "/home/a" "/mnt/b" (Some ["-r"]) true 5
             docs_manager)) =
  Some {| name := "docs"; source_dir := "/home/a"; dest_dir := "/mnt/b";
          options := ["-r"]; auto_sync := true; interval := 5 |}.
Proof.
  exact (proj1 (add_job_replaces docs_manager "docs" "/home/a" "/mnt/b"
                  (Some ["-r"]) true 5 eq_refl)).
Defined.

(** C10: when [add_job] is called without options (or with [None]) the
    stored job carries the default options [-av --delete]; options that
    are given, the empty list included, are stored as given. *)
Theorem add_job_default_options :
  forall (self : SyncManager) (name source_dir dest_dir : string)
         (auto_sync : bool) (interval : Z),
    option_map options
      (PyDict.get name
         (jobs (add_job name source_dir dest_dir None auto_sync interval self)))
      = Some ["-av"; "--delete"] /\
    (forall given : list string,
       option_map options
         (PyDict.get name
            (jobs (add_job name source_dir dest_dir (Some given) auto_sync
                     interval self)))
       = Some given) /\
    option_map options
      (PyDict.get name
         (jobs (add_job name source_dir dest_dir (Some []) auto_sync interval
                  self)))
      = Some [].
Proof.
  intros self n s d a i. cbn.
  rewrite !PyDictFacts.get_set_same. repeat split.
  intros given. now rewrite PyDictFacts.get_set_same.
Qed.

(** ** Running every job *)






Section RunAllFacts.
Variable E : environment.

Lemma start_sync_extends name rt :
  start_sync E name rt = (Return tt, snd (start_sync E name rt)) /\
  emitted (snd (start_sync E name rt)) =
    emitted rt ++ events_of (start_sync E name) rt.
Proof.
  pose proof (start_sync_cases E name rt) as (Hret & _ & H).
  split.
  - destruct (start_sync E name rt) as [o rt']. simpl in *. now subst.
  - assert (Hex : exists evs,
               emitted (snd (start_sync E name rt)) = emitted rt ++ evs).
    { destruct (PyDict.get name (jobs (manager rt))) as [job|];
        [|destruct H; eauto].
      destruct (os_path_exists E (popen_calls rt) (source_dir job));
        [|destruct H; eauto].
      destruct H as [_ H].
      destruct (subprocess_Popen E (popen_calls rt) (build_command job))
        as [p|e]; [|eauto].
      destruct (communicate p) as [e exited|out err rc]; [eauto|].
      destruct (rc =? 0)%Z; eauto. }
    destruct Hex as [evs Hevs].
    now rewrite (@events_of_app _ _ _ Hevs).
Qed.


(** The loop of [start_all_sync] never stops early, and what it emits is
    the blocks of its calls one after the other. *)
Lemma for_each_start_sync_blocks names :
  forall rt,
    fst (for_each names (start_sync E) rt) = Return tt /\
    emitted (snd (for_each names (start_sync E) rt)) =
      emitted rt ++ List.concat (run_blocks E names rt).
Proof.
  induction names as [|name rest IH]; intros rt.
  - cbn. now rewrite app_nil_r.
  - destruct (start_sync_extends name rt) as [Hpair Hev].
    assert (Hstep : for_each (name :: rest) (start_sync E) rt =
                    for_each rest (start_sync E) (snd (start_sync E name rt))).
    { cbn [for_each]. unfold bind at 1. now rewrite Hpair. }
    destruct (IH (snd (start_sync E name rt))) as [Hret Hevs].
    rewrite Hstep. split; [exact Hret|].
    rewrite Hevs, Hev. cbn [run_blocks List.concat]. now rewrite app_assoc.
Qed.

Variable registry : PyDict.t Job.
Hypothesis sources_exist_and_launches_succeed :
  forall (calls : list cmdline) (name : string) (job : Job),
    PyDict.get name registry = Some job ->
    os_path_exists E calls (source_dir job) = true /\
    exists p : process,
      subprocess_Popen E calls
        ("rsync" :: options job ++ [source_dir job; dest_dir job]) = Return p.



End RunAllFacts.




(** ** Loading and saving the configuration *)

Lemma load_config_never_raises (w : io) (s : session) :
  fst (load_config w s) = Return tt.
Proof.
  unfold load_config, try_except.
  match goal with |- context [match ?body s with _ => _ end] =>
    destruct (body s) as [[[]|e] s'] end; reflexivity.
Qed.

(** C5, as stated, fails for a registry that already holds a job: with the
    configuration file missing, [load_config] returns normally and the job
    is still registered afterwards. *)
Lemma load_config_missing_keeps_jobs :
  config (session_of docs_manager Missing) = Missing /\
  fst (load_config io_ok (session_of docs_manager Missing)) = Return tt /\
  PyDict.keys
    (jobs (sync_manager (snd (load_config io_ok
                                (session_of docs_manager Missing)))))
  = ["docs"] /\
  jobs (sync_manager (snd (load_config io_ok
                             (session_of docs_manager Missing))))
  <> PyDict.empty Job.
Proof.
  repeat split; try reflexivity. vm_compute. discriminate.
Qed.

(** C5, amended: loading a configuration document that is missing or
    cannot be parsed returns normally and leaves the registry exactly as
    it was before the load; the job set is therefore empty afterwards when
    it was empty before, as it is when the application starts. *)
Theorem load_config_missing_or_unparsable :
  forall (w : io) (s : session),
    missing_or_unparsable (config s) = true ->
    fst (load_config w s) = Return tt /\
    sync_manager (snd (load_config w s)) = sync_manager s.
Proof.
  intros w s Hfile. split; [apply load_config_never_raises|].
  unfold load_config, try_except, bind, os_makedirs, get_state, json_load,
    print, modify, raise, ret.
  destruct (makedirs_error w) as [e|]; [reflexivity|].
  destruct (config s) as [|e|d]; [reflexivity|reflexivity|discriminate].
Qed.

Lemma load_config_missing_or_unparsable_witness :
  jobs (sync_manager
          (snd (load_config io_ok
                  (session_of init (Unparsable (Exn "Expecting value"))))))
  = PyDict.empty Job.
Proof.
  exact (f_equal jobs
           (proj2 (load_config_missing_or_unparsable io_ok
                     (session_of init (Unparsable (Exn "Expecting value")))
                     eq_refl))).
Defined.

(** A parsed document that is not an object, or whose [sync_jobs] cannot
    be iterated over, empties the registry: the jobs are cleared before
    the document is looked into. *)
Lemma load_config_wrong_shape_clears (w : io) (s : session) (ty : string) :
  makedirs_error w = None ->
  config s = Parsed (NotADict ty) \/
  config s = Parsed (Dict (Some (NotIterable ty))) ->
  jobs (sync_manager (snd (load_config w s))) = PyDict.empty Job.
Proof.
  intros Hmk Hfile.
  unfold load_config, try_except, bind, os_makedirs, get_state, json_load,
    on_manager, config_get_sync_jobs, iterate, print, modify, raise, ret.
  rewrite Hmk. destruct Hfile as [-> | ->]; reflexivity.
Qed.

Lemma register_jobs (job : Job) (self : SyncManager) :
  jobs (register job self) = PyDict.set (name job) job (jobs self).
Proof. destruct job. reflexivity. Qed.

Lemma registry_of_app js js' :
  registry_of (js ++ js') = registry_of js ++ registry_of js'.
Proof. apply map_app. Qed.

Lemma keys_registry_of js : PyDict.keys (registry_of js) = map name js.
Proof. unfold PyDict.keys, registry_of. rewrite map_map. reflexivity. Qed.

Lemma values_registry_of js : PyDict.values (registry_of js) = js.
Proof.
  unfold PyDict.values, registry_of. rewrite map_map. apply map_id.
Qed.

(** Registering jobs with pairwise distinct names, none of them in the
    registry yet, appends them in order. *)
Lemma fold_register_distinct js :
  forall (done : list Job) (self : SyncManager),
    NoDup (map name (done ++ js)) ->
    jobs self = registry_of done ->
    jobs (fold_left (fun m job => register job m) js self)
    = registry_of (done ++ js).
Proof.
  induction js as [|job rest IH]; intros done self Hnd Hjobs.
  - now rewrite app_nil_r.
  - cbn [fold_left].
    replace (done ++ job :: rest) with ((done ++ [job]) ++ rest) in *
      by (now rewrite <- app_assoc).
    apply IH; [exact Hnd|].
    rewrite register_jobs, Hjobs, registry_of_app.
    apply PyDictFacts.set_absent, PyDictFacts.not_In_mem_false.
    rewrite keys_registry_of.
    rewrite map_app, map_app in Hnd. apply NoDup_app_remove_r in Hnd.
    apply NoDup_remove_2 in Hnd. now rewrite app_nil_r in Hnd.
Qed.

Lemma for_each_load_entry js :
  forall s : session,
    for_each (map (fun job => JobObject (record_of_job job)) js) load_entry s
    = (Return tt,
       {| sync_manager :=
            fold_left (fun m job => register job m) js (sync_manager s);
          config := config s;
          printed := printed s;
          warnings := warnings s |}).
Proof.
  induction js as [|job rest IH]; intros s.
  - now destruct s.
  - cbn [map for_each]. unfold bind at 1.
    cbn [load_entry on_manager modify record_of_job get_default
         r_name r_source_dir r_dest_dir r_options r_auto_sync r_interval].
    rewrite IH. reflexivity.
Qed.

Lemma for_each_accept_item js :
  forall s : session,
    for_each (registry_of js)
      (fun item =>
         let '(job_name, job) := item in
         on_manager (add_job (name job) (source_dir job) (dest_dir job)
                             (Some (options job)) (auto_sync job)
                             (interval job))) s
    = (Return tt,
       {| sync_manager :=
            fold_left (fun m job => register job m) js (sync_manager s);
          config := config s;
          printed := printed s;
          warnings := warnings s |}).
Proof.
  induction js as [|job rest IH]; intros s.
  - now destruct s.
  - cbn [registry_of map for_each]. unfold bind at 1.
    cbn [on_manager modify]. fold (registry_of rest).
    rewrite IH. reflexivity.
Qed.

Lemma load_config_document (js : list Job) (w : io) (s : session) :
  makedirs_error w = None ->
  config s = Parsed (document_of_jobs js) ->
  load_config w s
  = (Return tt,
     {| sync_manager :=
          fold_left (fun m job => register job m) js
            (clear_jobs (sync_manager s));
        config := config s;
        printed := printed s;
        warnings := warnings s |}).
Proof.
  intros Hmk Hfile.
  unfold load_config, try_except, bind at 1, os_makedirs. rewrite Hmk.
  unfold ret at 1, bind at 1, get_state. rewrite Hfile.
  unfold bind at 1, json_load, ret at 1, bind at 1, on_manager, modify.
  unfold bind at 1, document_of_jobs, config_get_sync_jobs, ret at 1.
  unfold bind at 1, iterate, ret at 1.
  rewrite for_each_load_entry. cbn. now rewrite Hfile.
Qed.

Lemma accept_registry (js : list Job) (w : io) (self : ConfigDialog)
    (s : session) :
  makedirs_error w = None ->
  open_for_writing_error w = None ->
  dialog_jobs self = registry_of js ->
  accept w self s
  = (Return tt,
     {| sync_manager :=
          fold_left (fun m job => register job m) js
            (clear_jobs (sync_manager s));
        config := Parsed (document_of_jobs js);
        printed := printed s;
        warnings := warnings s |}).
Proof.
  intros Hmk Hopen Hjobs.
  unfold accept, bind at 1, on_manager at 1, modify. rewrite Hjobs.
  unfold bind at 1. rewrite for_each_accept_item.
  unfold try_except, bind, os_makedirs, json_dump, modify, ret.
  rewrite Hmk, Hopen, values_registry_of. reflexivity.
Qed.

(** C6, as stated, fails on a document in which two records carry the same
    name: the registry keeps one job per name, so the second record
    replaces the first and the saved document holds a single record. *)
Lemma round_trip_merges_same_names :
  config (snd (load_then_save io_ok io_ok
                 (session_of init (Parsed (document_of_jobs same_name_jobs)))))
  = Parsed (document_of_jobs
              [ {| name := "docs"; source_dir := "/tmp/other";
                   dest_dir := "/tmp/dst"; options := ["-av"];
                   auto_sync := false; interval := 60 |} ]) /\
  config (snd (load_then_save io_ok io_ok
                 (session_of init (Parsed (document_of_jobs same_name_jobs)))))
  <> Parsed (document_of_jobs same_name_jobs).
Proof.
  split; [reflexivity|]. vm_compute. discriminate.
Qed.

(** C6, amended: for every sequence [x] of job records that have all six
    fields and pairwise distinct names, loading the document that holds
    [x] puts the jobs of [x] into the registry, in order, and saving the
    registry afterwards (both without an I/O failure) writes a document
    equal to the one holding [x], whatever the file holds at the moment of
    saving; the registry still holds the jobs of [x] after the save. *)
Theorem save_load_round_trip :
  forall (x : list Job) (w_load w_save : io) (s : session)
         (prior : config_file),
    NoDup (map name x) ->
    makedirs_error w_load = None ->
    makedirs_error w_save = None ->
    open_for_writing_error w_save = None ->
    config s = Parsed (document_of_jobs x) ->
    let loaded := snd (load_config w_load s) in
    let saved := snd (save_registry w_save (with_config prior loaded)) in
    fst (load_config w_load s) = Return tt /\
    PyDict.values (jobs (sync_manager loaded)) = x /\
    fst (save_registry w_save (with_config prior loaded)) = Return tt /\
    config saved = Parsed (document_of_jobs x) /\
    PyDict.values (jobs (sync_manager saved)) = x /\
    fst (load_then_save w_load w_save s) = Return tt /\
    config (snd (load_then_save w_load w_save s))
    = Parsed (document_of_jobs x) /\
    PyDict.values
      (jobs (sync_manager (snd (load_then_save w_load w_save s)))) = x.
Proof.
  intros x w_load w_save s prior Hnd Hmk Hmk' Hopen Hfile.
  assert (Hreg : forall self : SyncManager,
             jobs (fold_left (fun m job => register job m) x (clear_jobs self))
             = registry_of x).
  { intros self. apply (@fold_register_distinct x [] (clear_jobs self));
      [exact Hnd | reflexivity]. }
  cbv zeta.
  unfold load_then_save, save_registry, bind, get_state.
  rewrite (@load_config_document x w_load s Hmk Hfile).
  cbn [fst snd sync_manager with_config].
  rewrite (@accept_registry x w_save
             (ConfigDialog_init
                (fold_left (fun m job => register job m) x
                   (clear_jobs (sync_manager s))))
             _ Hmk' Hopen (Hreg (sync_manager s))).
  rewrite (@accept_registry x w_save
             (ConfigDialog_init
                (fold_left (fun m job => register job m) x
                   (clear_jobs (sync_manager s))))
             _ Hmk' Hopen (Hreg (sync_manager s))).
  cbn [fst snd config sync_manager].
  rewrite !Hreg, values_registry_of. repeat split.
Qed.

Lemma save_load_round_trip_witness :
  config (snd (save_registry io_ok
                 (with_config Missing
                    (snd (load_config io_ok
                            (session_of docs_manager
                               (Parsed (document_of_jobs two_jobs))))))))
  = Parsed (document_of_jobs two_jobs).
Proof.
  refine (proj1 (proj2 (proj2 (proj2
    (@save_load_round_trip two_jobs io_ok io_ok
       (session_of docs_manager (Parsed (document_of_jobs two_jobs)))
       Missing _ eq_refl eq_refl eq_refl eq_refl))))).
  repeat constructor; simpl; intuition discriminate.
Defined.

(** * Further properties of the code *)

Unset Implicit Arguments.

(** ** More facts about Python dictionaries *)

Module PyDictMore.
Import PyDict.
Section Facts.
Variable V : Type.
Implicit Types (d : t V) (k : string) (v : V).

Lemma mem_true_In k d : mem k d = true -> In k (keys d).
Proof.
  intros H. destruct (in_dec string_dec k (keys d)) as [Hin|Hnin]; auto.
  rewrite (PyDictFacts.not_In_mem_false _ _ Hnin) in H. discriminate.
Qed.

Lemma In_mem_true k d : In k (keys d) -> mem k d = true.
Proof.
  intros H. unfold mem.
  destruct (PyDictFacts.In_keys_get _ _ H) as [v ->]. reflexivity.
Qed.

Lemma keys_set_absent k v d :
  mem k d = false -> keys (set k v d) = keys d ++ [k].
Proof.
  intros H. rewrite (PyDictFacts.set_absent _ _ _ H).
  unfold keys. now rewrite map_app.
Qed.

Lemma In_keys_set k k' v d :
  In k' (keys (set k v d)) <-> k' = k \/ In k' (keys d).
Proof.
  destruct (mem k d) eqn:Hm.
  - rewrite (PyDictFacts.keys_set_present _ _ _ Hm). split; [auto|].
    intros [->|H]; auto. now apply mem_true_In.
  - rewrite (keys_set_absent _ _ _ Hm), in_app_iff. simpl. intuition.
Qed.

Lemma NoDup_keys_set k v d : NoDup (keys d) -> NoDup (keys (set k v d)).
Proof.
  intros Hnd. destruct (mem k d) eqn:Hm.
  - now rewrite (PyDictFacts.keys_set_present _ _ _ Hm).
  - rewrite (keys_set_absent _ _ _ Hm).
    apply NoDup_app; [exact Hnd | repeat constructor; simpl; tauto |].
    intros x Hx [<-|[]]. now apply (PyDictFacts.mem_false_not_In _ _ Hm).
Qed.

Lemma del_absent k d : mem k d = false -> del k d = None.
Proof.
  unfold mem. induction d as [|[k' v'] rest IH]; simpl; auto.
  destruct (String.eqb k k'); [discriminate|]. intros H. now rewrite IH.
Qed.

Lemma del_present k d : mem k d = true -> exists d', del k d = Some d'.
Proof.
  unfold mem. induction d as [|[k' v'] rest IH]; simpl; [discriminate|].
  destruct (String.eqb k k'); [eauto|]. intros H.
  destruct (IH H) as [d' ->]. eauto.
Qed.

Lemma del_keys k d d' :
  NoDup (keys d) -> del k d = Some d' ->
  keys d' = filter (fun k' => negb (String.eqb k' k)) (keys d).
Proof.
  revert d'. induction d as [|[k' v'] rest IH]; simpl; intros d' Hnd;
    [discriminate|].
  inversion Hnd as [|? ? Hnin Hnd']; subst.
  destruct (String.eqb_spec k k') as [->|Hne].
  - intros [= <-]. rewrite String.eqb_refl. simpl.
    symmetry. apply forallb_filter_id. apply forallb_forall. intros x Hx.
    destruct (String.eqb_spec x k'); [subst; contradiction | reflexivity].
  - destruct (del k rest) as [rest'|] eqn:Hdel; [|discriminate].
    intros [= <-]. simpl.
    destruct (String.eqb_spec k' k); [congruence|]. simpl.
    f_equal. now apply IH.
Qed.

Lemma del_get_other k k' d d' :
  del k d = Some d' -> k' <> k -> get k' d' = get k' d.
Proof.
  revert d'. induction d as [|[k0 v0] rest IH]; simpl; intros d';
    [discriminate|].
  destruct (String.eqb_spec k k0) as [->|Hne].
  - intros [= <-] Hk. destruct (String.eqb_spec k' k0); congruence.
  - destruct (del k rest) as [rest'|] eqn:Hdel; [|discriminate].
    intros [= <-] Hk. simpl. destruct (String.eqb k' k0); auto.
Qed.

Lemma del_sublist k d d' :
  del k d = Some d' -> forall entry, In entry d' -> In entry d.
Proof.
  revert d'. induction d as [|[k0 v0] rest IH]; simpl; intros d';
    [discriminate|].
  destruct (String.eqb k k0).
  - intros [= <-] entry H. now right.
  - destruct (del k rest) as [rest'|] eqn:Hdel; [|discriminate].
    intros [= <-] entry [H|H]; [now left | right; eauto].
Qed.

Lemma del_set_absent k v d : mem k d = false -> del k (set k v d) = Some d.
Proof.
  unfold mem. induction d as [|[k' v'] rest IH]; simpl.
  - now rewrite String.eqb_refl.
  - destruct (String.eqb k k') eqn:E; [discriminate|]. intros H.
    simpl. now rewrite E, IH.
Qed.

Lemma In_set_entry k v d entry :
  In entry (set k v d) -> entry = (k, v) \/ In entry d.
Proof.
  induction d as [|[k' v'] rest IH]; simpl.
  - intros [<-|[]]. now left.
  - destruct (String.eqb k k'); simpl.
    + intros [<-|H]; auto.
    + intros [<-|H]; auto. destruct (IH H); auto.
Qed.

End Facts.
End PyDictMore.

(** ** The registry under [add_job], [remove_job] and [clear_jobs] *)

(** X1: [remove_job] never raises.  On a registry without duplicate keys
    it leaves no job under the name, keeps the other jobs and their order,
    and does not touch the running processes; for a name that is not
    registered the manager is returned unchanged. *)
Theorem remove_job_removes :
  forall (self : SyncManager) (name : string),
    NoDup (PyDict.keys (jobs self)) ->
    let self' := remove_job name self in
    PyDict.mem name (jobs self') = false /\
    (forall other : string,
       other <> name ->
       PyDict.get other (jobs self') = PyDict.get other (jobs self)) /\
    PyDict.keys (jobs self') =
      filter (fun k => negb (String.eqb k name)) (PyDict.keys (jobs self)) /\
    running_processes self' = running_processes self /\
    (PyDict.mem name (jobs self) = false -> self' = self).
Proof.
  intros self n Hnd. unfold remove_job.
  destruct (PyDict.mem n (jobs self)) eqn:Hm.
  - destruct (PyDictMore.del_present _ _ _ Hm) as [d' Hdel]. rewrite Hdel.
    cbn [jobs running_processes].
    pose proof (PyDictMore.del_keys _ _ _ _ Hnd Hdel) as Hkeys.
    repeat split; auto.
    + apply PyDictFacts.not_In_mem_false. rewrite Hkeys, filter_In.
      intros [_ H]. now rewrite String.eqb_refl in H.
    + intros other Hne. exact (PyDictMore.del_get_other _ _ _ _ _ Hdel Hne).
    + discriminate.
  - repeat split; auto.
    symmetry. apply forallb_filter_id, forallb_forall. intros x Hx.
    destruct (String.eqb_spec x n); [|reflexivity].
    subst. exfalso. now apply (PyDictFacts.mem_false_not_In _ _ Hm).
Qed.

Lemma remove_job_removes_witness :
  PyDict.keys
    (jobs (remove_job "docs"
             (add_job "music" "/tmp/m" "/tmp/n" None false 60 docs_manager)))
  = ["music"].
Proof.
  refine (proj1 (proj2 (proj2
    (remove_job_removes
       (add_job "music" "/tmp/m" "/tmp/n" None false 60 docs_manager)
       "docs" _)))).
  repeat constructor; simpl; intuition discriminate.
Defined.

(** X2: [add_job] under a name that is not registered yet appends the job
    at the end of the registry: one more entry, the new name last, every
    job already there unchanged. *)
Theorem add_job_appends :
  forall (self : SyncManager) (name source_dir dest_dir : string)
         (options : option (list string)) (auto_sync : bool) (interval : Z),
    PyDict.mem name (jobs self) = false ->
    let self' := add_job name source_dir dest_dir options auto_sync interval
                   self in
    PyDict.keys (jobs self') = PyDict.keys (jobs self) ++ [name] /\
    List.length (jobs self') = S (List.length (jobs self)) /\
    forall other : string,
      other <> name ->
      PyDict.get other (jobs self') = PyDict.get other (jobs self).
Proof.
  intros self n s d o a i Hm. cbn. split; [|split].
  - now apply PyDictMore.keys_set_absent.
  - rewrite (PyDictFacts.set_absent _ _ _ Hm), length_app. simpl. lia.
  - intros other Hne. apply PyDictFacts.get_set_other. congruence.
Qed.

Lemma add_job_appends_witness :
  PyDict.keys
    (jobs (add_job "music" "/tmp/m" "/tmp/n" None false 60 docs_manager))
  = ["docs"; "music"].
Proof.
  exact (proj1 (add_job_appends docs_manager "music" "/tmp/m" "/tmp/n"
                  None false 60 eq_refl)).
Defined.

Lemma well_formed_add_job self n s d o a i :
  well_formed (jobs self) -> well_formed (jobs (add_job n s d o a i self)).
Proof.
  intros [Hnd Hk]. cbn. split.
  - now apply PyDictMore.NoDup_keys_set.
  - apply Forall_forall. intros entry Hin.
    destruct (PyDictMore.In_set_entry _ _ _ _ _ Hin) as [->|Hin'];
      [reflexivity|].
    exact (proj1 (Forall_forall _ _) Hk entry Hin').
Qed.

Lemma well_formed_remove_job self n :
  well_formed (jobs self) -> well_formed (jobs (remove_job n self)).
Proof.
  intros [Hnd Hk]. unfold remove_job.
  destruct (PyDict.mem n (jobs self)); [|now split].
  destruct (PyDict.del n (jobs self)) as [d'|] eqn:Hdel; [|now split].
  cbn. split.
  - rewrite (PyDictMore.del_keys _ _ _ _ Hnd Hdel). now apply NoDup_filter.
  - apply Forall_forall. intros entry Hin.
    apply (PyDictMore.del_sublist _ _ _ _ Hdel) in Hin.
    exact (proj1 (Forall_forall _ _) Hk entry Hin).
Qed.

Lemma well_formed_empty : well_formed (PyDict.empty Job).
Proof. split; constructor. Qed.

(** X3: whatever sequence of [add_job], [remove_job] and [clear_jobs]
    calls is made on a new manager, its registry has no name twice and
    holds every job under the job's own [name] field. *)
Theorem registry_well_formed :
  forall calls : list registry_call,
    well_formed (jobs (perform_all calls init)).
Proof.
  intros calls. unfold perform_all.
  assert (H : forall self, well_formed (jobs self) ->
                well_formed (jobs (fold_left (fun m c => perform c m) calls self))).
  { induction calls as [|call rest IH]; intros self Hwf; [exact Hwf|].
    cbn [fold_left]. apply IH.
    destruct call; cbn [perform].
    - now apply well_formed_add_job.
    - now apply well_formed_remove_job.
    - apply well_formed_empty. }
  apply H, well_formed_empty.
Qed.

(** X4: registering a job under a new name and removing it again gives
    back the manager as it was. *)
Theorem remove_job_undoes_add_job :
  forall (self : SyncManager) (name source_dir dest_dir : string)
         (options : option (list string)) (auto_sync : bool) (interval : Z),
    PyDict.mem name (jobs self) = false ->
    remove_job name
      (add_job name source_dir dest_dir options auto_sync interval self)
    = self.
Proof.
  intros [js rp] n s d o a i Hm. unfold remove_job, add_job.
  cbn [jobs running_processes] in *.
  rewrite PyDictFacts.mem_set_same, (PyDictMore.del_set_absent _ _ _ _ Hm).
  reflexivity.
Qed.

Lemma remove_job_undoes_add_job_witness :
  remove_job "music"
    (add_job "music" "/tmp/m" "/tmp/n" None false 60 docs_manager)
  = docs_manager.
Proof.
  exact (remove_job_undoes_add_job docs_manager "music" "/tmp/m" "/tmp/n"
           None false 60 eq_refl).
Defined.
(** ** The runner: what a call reports, launches and leaves behind *)

(** The four shapes the signals of one call can take. *)
Lemma start_sync_shapes (E : environment) (name : string) (rt : runtime) :
  let evs := events_of (start_sync E name) rt in
  (exists message, evs = [sync_error name message]) \/
  (exists message,
     evs = [sync_error name message; sync_finished name false]) \/
  evs = [sync_started name; sync_finished name true] \/
  (exists message,
     evs = [sync_started name; sync_error name message;
            sync_finished name false]).
Proof.
  cbv zeta.
  pose proof (start_sync_cases E name rt) as (_ & _ & H).
  destruct (PyDict.get name (jobs (manager rt))) as [job|].
  2: { destruct H as [H _]. rewrite (events_of_app _ _ _ H). left. eauto. }
  destruct (os_path_exists E (popen_calls rt) (source_dir job)).
  2: { destruct H as [H _]. rewrite (events_of_app _ _ _ H). left. eauto. }
  destruct H as [_ H].
  destruct (subprocess_Popen E (popen_calls rt) (build_command job)) as [p|e].
  2: { rewrite (events_of_app _ _ _ H). right. left. eauto. }
  destruct (communicate p) as [e exited|out err rc].
  { rewrite (events_of_app _ _ _ H). right. right. right. eauto. }
  destruct (rc =? 0)%Z; rewrite (events_of_app _ _ _ H).
  - right. right. now left.
  - right. right. right. eauto.
Qed.

Lemma start_sync_block_reports (E : environment) (name : string)
    (rt : runtime) :
  events_of (start_sync E name) rt <> [] /\
  Forall (fun ev => signal_job ev = name) (events_of (start_sync E name) rt) /\
  existsb is_progress (events_of (start_sync E name) rt) = false.
Proof.
  destruct (start_sync_shapes E name rt)
    as [[m H]|[[m H]|[H|[m H]]]]; cbv zeta in H; rewrite H;
    (split; [discriminate | split; [repeat constructor | reflexivity]]).
Qed.

(** X5: every call of [start_sync] emits at least one signal, each of its
    signals carries the name the call was made with, and none of them is
    [sync_progress]. *)
Theorem start_sync_reports_its_job :
  forall (E : environment) (name : string) (rt : runtime),
    let evs := events_of (start_sync E name) rt in
    evs <> [] /\
    Forall (fun ev => signal_job ev = name) evs /\
    existsb is_progress evs = false.
Proof.
  intros E name rt evs. subst evs. apply start_sync_block_reports.
Qed.

(** What one call does to [self.running_processes] and to the list of
    launches. *)
Lemma start_sync_bookkeeping (E : environment) (name : string) (rt : runtime) :
  PyDict.mem name (running_processes (manager rt)) = false ->
  running_processes (manager (snd (start_sync E name rt))) =
    match abandoned_process E name rt with
    | Some p => running_processes (manager rt) ++ [(name, p)]
    | None => running_processes (manager rt)
    end.
Proof.
  destruct rt as [[js rp] evs calls]. intros Hm.
  cbn [manager running_processes] in Hm.
  unfold abandoned_process, start_sync, bind, get_state, jobs_getitem,
    path_exists, PyDict.mem, try_except, Popen, running_setitem, emit, modify,
    process_communicate, running_delitem, raise, ret.
  cbn -[build_command].
  destruct (PyDict.get name js) as [job|] eqn:Hget;
    cbn -[build_command]; rewrite ?Hget; cbn -[build_command];
    [|reflexivity].
  destruct (os_path_exists E calls (source_dir job)); cbn -[build_command];
    [|reflexivity].
  destruct (subprocess_Popen E calls (build_command job)) as [p|e];
    cbn -[build_command]; [|reflexivity].
  destruct (communicate p) as [e exited|out err rc]; cbn -[build_command].
  { now rewrite (PyDictFacts.set_absent _ _ _ Hm). }
  destruct (rc =? 0)%Z; cbn -[build_command];
    rewrite (PyDictMore.del_set_absent _ _ _ _ Hm); reflexivity.
Qed.

(** X6: when no process is recorded for the job before the call,
    [start_sync] leaves [self.running_processes] as it found it on every
    path but one: if [communicate] raises, the entry made for the launched
    process is never deleted and stays under the job's name. *)
Theorem start_sync_running_processes :
  forall (E : environment) (name : string) (rt : runtime),
    PyDict.mem name (running_processes (manager rt)) = false ->
    let after := running_processes (manager (snd (start_sync E name rt))) in
    (abandoned_process E name rt = None ->
     after = running_processes (manager rt)) /\
    (forall p : process,
       abandoned_process E name rt = Some p ->
       after = running_processes (manager rt) ++ [(name, p)] /\
       PyDict.get name after = Some p).
Proof.
  intros E name rt Hm after. subst after.
  rewrite (start_sync_bookkeeping E name rt Hm).
  split.
  - now intros ->.
  - intros p ->. split; [reflexivity|].
    rewrite <- (PyDictFacts.set_absent _ _ _ Hm).
    apply PyDictFacts.get_set_same.
Qed.

Lemma start_sync_running_processes_witness :
  PyDict.mem "docs"
    (running_processes
       (manager (snd (start_sync env_communicate_raises "docs"
                        (fresh docs_manager))))) = true /\
  running_processes
    (manager (snd (start_sync (env_exit true 1 "") "docs"
                     (fresh docs_manager)))) = [].
Proof.
  split.
  - unfold PyDict.mem.
    now rewrite (proj2 (proj2 (start_sync_running_processes
                   env_communicate_raises "docs" (fresh docs_manager)
                   eq_refl) _ eq_refl)).
  - exact (proj1 (start_sync_running_processes (env_exit true 1 "") "docs"
                    (fresh docs_manager) eq_refl) eq_refl).
Defined.

(** The command lines a call hands to [subprocess.Popen]: none, or the one
    of the job called. *)
Lemma start_sync_launches (E : environment) (name : string) (rt : runtime) :
  jobs (manager (snd (start_sync E name rt))) = jobs (manager rt) /\
  exists cmds,
    popen_calls (snd (start_sync E name rt)) = popen_calls rt ++ cmds /\
    (cmds = [] \/
     exists job, PyDict.get name (jobs (manager rt)) = Some job /\
                 cmds = [build_command job]).
Proof.
  pose proof (start_sync_cases E name rt) as (_ & Hjobs & H).
  split; [exact Hjobs|].
  destruct (PyDict.get name (jobs (manager rt))) as [job|].
  2: { destruct H as [_ H]. exists []. auto. }
  destruct (os_path_exists E (popen_calls rt) (source_dir job)).
  2: { destruct H as [_ H]. exists []. auto. }
  destruct H as [H _]. exists [build_command job]. split; [exact H|].
  right. now exists job.
Qed.

Lemma for_each_start_sync_launches (E : environment) (names : list string) :
  forall rt,
    exists cmds,
      popen_calls (snd (for_each names (start_sync E) rt)) =
        popen_calls rt ++ cmds /\
      List.length cmds <= List.length names /\
      Forall (fun cmd =>
                exists name job,
                  In name names /\
                  PyDict.get name (jobs (manager rt)) = Some job /\
                  cmd = build_command job) cmds.
Proof.
  induction names as [|name rest IH]; intros rt.
  - exists []. cbn. rewrite app_nil_r. auto.
  - destruct (start_sync_extends E name rt) as [Hpair _].
    assert (Hstep : for_each (name :: rest) (start_sync E) rt =
                    for_each rest (start_sync E) (snd (start_sync E name rt))).
    { cbn [for_each]. unfold bind at 1. now rewrite Hpair. }
    destruct (start_sync_launches E name rt) as (Hjobs & c1 & Hc1 & Hshape).
    destruct (IH (snd (start_sync E name rt))) as (c2 & Hc2 & Hlen & Hall).
    exists (c1 ++ c2). rewrite Hstep, Hc2, Hc1, app_assoc.
    split; [reflexivity|]. split.
    + rewrite length_app. cbn [List.length].
      destruct Hshape as [->|(job & _ & ->)]; cbn; lia.
    + apply Forall_app. split.
      * destruct Hshape as [->|(job & Hget & ->)]; [constructor|].
        repeat constructor. exists name, job. cbn. auto.
      * rewrite Hjobs in Hall. revert Hall. apply Forall_impl.
        intros cmd (n & job & Hin & Hget & ->). exists n, job. cbn. auto.
Qed.

(** X7: one call of [start_sync] launches at most one process, and
    [start_all_sync] over a registry of N jobs launches at most N; every
    command line launched is ["rsync"], the options, the source and the
    destination of a job that is registered.  Neither changes the
    registry. *)
Theorem launches_are_registered_jobs :
  forall (E : environment) (rt : runtime),
    (forall name : string,
       List.length (launches_of (start_sync E name) rt) <= 1 /\
       jobs (manager (snd (start_sync E name rt))) = jobs (manager rt)) /\
    List.length (launches_of (start_all_sync E) rt)
      <= List.length (jobs (manager rt)) /\
    Forall (fun cmd =>
              exists name job,
                PyDict.get name (jobs (manager rt)) = Some job /\
                cmd = ["rsync"] ++ options job
                        ++ [source_dir job; dest_dir job])
           (launches_of (start_all_sync E) rt).
Proof.
  intros E rt. split.
  - intros name.
    destruct (start_sync_launches E name rt) as (Hjobs & cmds & Hc & Hshape).
    rewrite (launches_of_app _ _ _ Hc). split; [|exact Hjobs].
    destruct Hshape as [->|(job & _ & ->)]; cbn; lia.
  - destruct (for_each_start_sync_launches E
                (PyDict.keys (jobs (manager rt))) rt)
      as (cmds & Hc & Hlen & Hall).
    assert (Hrun : start_all_sync E rt =
                   for_each (PyDict.keys (jobs (manager rt))) (start_sync E) rt)
      by reflexivity.
    rewrite <- Hrun in Hc. rewrite (launches_of_app _ _ _ Hc).
    split.
    + unfold PyDict.keys in Hlen. now rewrite length_map in Hlen.
    + revert Hall. apply Forall_impl.
      intros cmd (n & job & _ & Hget & ->). now exists n, job.
Qed.

Lemma run_blocks_report (E : environment) (names : list string) :
  forall rt,
    Forall2 (fun name block =>
               block <> [] /\
               Forall (fun ev => signal_job ev = name) block /\
               existsb is_progress block = false)
            names (run_blocks E names rt).
Proof.
  induction names as [|name rest IH]; intros rt; cbn [run_blocks];
    constructor; [|apply IH].
  exact (start_sync_block_reports E name rt).
Qed.

Lemma blocks_report_all (names : list string) (blocks : list (list signal)) :
  Forall2 (fun name block =>
             block <> [] /\
             Forall (fun ev => signal_job ev = name) block /\
             existsb is_progress block = false)
          names blocks ->
  (forall ev, In ev (List.concat blocks) -> In (signal_job ev) names) /\
  (forall name, In name names ->
     exists ev, In ev (List.concat blocks) /\ signal_job ev = name) /\
  existsb is_progress (List.concat blocks) = false.
Proof.
  induction 1 as [|name block names blocks (Hne & Hall & Hnp) _ (IH1 & IH2 & IH3)].
  - cbn. repeat split; [intros ev [] | intros name []].
  - cbn [List.concat]. repeat split.
    + intros ev Hin. apply in_app_or in Hin. destruct Hin as [Hin|Hin].
      * left. symmetry. exact (proj1 (Forall_forall _ _) Hall ev Hin).
      * right. now apply IH1.
    + intros n [<-|Hin].
      * destruct block as [|ev block']; [contradiction|].
        exists ev. split; [now left|].
        exact (proj1 (Forall_forall _ _) Hall ev (or_introl eq_refl)).
      * destruct (IH2 n Hin) as (ev & Hev & Hjob).
        exists ev. split; [apply in_or_app; now right | exact Hjob].
    + rewrite existsb_app, Hnp, IH3. reflexivity.
Qed.

(** X8: [start_all_sync] reports on every registered job and on nothing
    else: each job of the registry is the subject of at least one emitted
    signal, whether its run succeeds, fails or is refused, every emitted
    signal is about a registered job, and no [sync_progress] is emitted. *)
Theorem start_all_sync_reports_every_job :
  forall (E : environment) (rt : runtime),
    let evs := events_of (start_all_sync E) rt in
    (forall name : string,
       In name (PyDict.keys (jobs (manager rt))) ->
       exists ev, In ev evs /\ signal_job ev = name) /\
    (forall ev : signal,
       In ev evs -> In (signal_job ev) (PyDict.keys (jobs (manager rt)))) /\
    existsb is_progress evs = false.
Proof.
  intros E rt evs.
  assert (Heq : evs =
                List.concat (run_blocks E (PyDict.keys (jobs (manager rt))) rt)).
  { subst evs. apply events_of_app.
    exact (proj2 (for_each_start_sync_blocks E
                    (PyDict.keys (jobs (manager rt))) rt)). }
  destruct (blocks_report_all _ _
              (run_blocks_report E (PyDict.keys (jobs (manager rt))) rt))
    as (H1 & H2 & H3).
  rewrite Heq. auto.
Qed.

Lemma start_all_sync_reports_every_job_witness :
  exists ev : signal,
    In ev (events_of (start_all_sync (env_exit false 0 ""))
             (fresh docs_manager)) /\
    signal_job ev = "docs".
Proof.
  apply (proj1 (start_all_sync_reports_every_job (env_exit false 0 "")
                  (fresh docs_manager)) "docs").
  left. reflexivity.
Defined.
(** ** The tray application *)

Lemma for_each_in_manager (E : environment) (names : list string) :
  forall app : tray_app,
    for_each names (fun job_name => in_manager (start_sync E job_name)) app
    = (Return tt,
       {| tool_tip := tool_tip app;
          app_runtime :=
            snd (for_each names (start_sync E) (app_runtime app)) |}).
Proof.
  induction names as [|name rest IH]; intros app.
  - now destruct app.
  - destruct (start_sync_extends E name (app_runtime app)) as [Hpair _].
    assert (Hstep : for_each (name :: rest) (start_sync E) (app_runtime app) =
                    for_each rest (start_sync E)
                      (snd (start_sync E name (app_runtime app)))).
    { cbn [for_each]. unfold bind at 1. now rewrite Hpair. }
    rewrite Hstep.
    cbn [for_each]. unfold bind at 1, in_manager at 1.
    rewrite Hpair. rewrite IH. reflexivity.
Qed.

(** X9: the tray's "Sync Now" does to the manager exactly what
    [start_all_sync] does, returns normally, and leaves the tool tip at
    "Syncing..." when it is done. *)
Theorem sync_all_is_start_all_sync :
  forall (E : environment) (app : tray_app),
    sync_all E app
    = (Return tt,
       {| tool_tip := "Syncing...";
          app_runtime := snd (start_all_sync E (app_runtime app)) |}).
Proof.
  intros E app. unfold sync_all, bind, setToolTip, modify, get_state.
  cbn [app_runtime tool_tip]. rewrite for_each_in_manager. reflexivity.
Qed.

Lemma length_stop_timer position timers :
  List.length (stop_timer position timers) = List.length timers.
Proof.
  revert position. induction timers as [|t rest IH]; intros [|p]; cbn; auto.
Qed.

Lemma stop_timer_inactive position timers :
  Forall (fun t => timer_active t = false) timers ->
  Forall (fun t => timer_active t = false) (stop_timer position timers).
Proof.
  revert position. induction timers as [|t rest IH]; intros [|p] H; cbn; auto;
    inversion H; subst; constructor; auto.
Qed.

(** Stopping keeps stopped timers stopped and stops the one addressed. *)
Lemma nth_error_stop_timer position timers q t :
  nth_error (stop_timer position timers) q = Some t ->
  timer_active t = true ->
  q <> position /\ nth_error timers q = Some t.
Proof.
  revert position q. induction timers as [|t0 rest IH]; intros [|p] [|q]; cbn;
    try discriminate.
  - intros [= <-]. cbn. discriminate.
  - auto.
  - intros [= <-] Ha. auto.
  - intros H Ha. destruct (IH p q H Ha). auto.
Qed.

Lemma stop_all_inactive refs :
  forall timers,
    (forall q t, nth_error timers q = Some t -> timer_active t = true ->
                 In q refs) ->
    Forall (fun t => timer_active t = false)
      (fold_left (fun ts position => stop_timer position ts) refs timers).
Proof.
  induction refs as [|r rest IH]; intros timers H; cbn [fold_left].
  - apply Forall_forall. intros t Hin.
    destruct (In_nth_error _ _ Hin) as [q Hq].
    destruct (timer_active t) eqn:Ha; [|reflexivity].
    destruct (H q t Hq Ha).
  - apply IH. intros q t Hq Ha.
    destruct (nth_error_stop_timer _ _ _ _ Hq Ha) as [Hne Hq'].
    destruct (H q t Hq' Ha) as [->|Hin]; [contradiction | exact Hin].
Qed.

Lemma add_timer_wanted app item :
  add_timer app item =
  if wants_timer item then
    {| children := children app ++ [timer_of item];
       _timers :=
         Some (match _timers app with Some refs => refs | None => [] end
               ++ [List.length (children app)]) |}
  else app.
Proof.
  destruct item as [job_name job]. unfold add_timer, wants_timer, timer_of.
  cbn [fst snd]. rewrite Z.gtb_ltb.
  destruct (auto_sync job && (0 <? interval job)%Z); [|reflexivity].
  now rewrite <- Z.mul_assoc.
Qed.

Lemma fold_add_timer registry :
  forall timers refs,
    fold_left add_timer registry {| children := timers; _timers := Some refs |}
    = {| children := timers ++ map timer_of (filter wants_timer registry);
         _timers :=
           Some (refs ++ seq (List.length timers)
                           (List.length (filter wants_timer registry))) |}.
Proof.
  induction registry as [|item rest IH]; intros timers refs.
  - cbn. now rewrite !app_nil_r.
  - cbn [fold_left filter]. rewrite add_timer_wanted.
    destruct (wants_timer item); [|apply IH].
    cbn [children _timers]. rewrite IH.
    cbn [map List.length seq].
    rewrite <- !app_assoc, length_app. cbn [List.length app].
    now rewrite Nat.add_1_r.
Qed.

Lemma tracked_appended (fresh_timers : list QTimer) :
  forall timers : list QTimer,
    flat_map (fun position =>
                match nth_error (timers ++ fresh_timers) position with
                | Some t => [t]
                | None => []
                end)
             (seq (List.length timers) (List.length fresh_timers))
    = fresh_timers.
Proof.
  induction fresh_timers as [|t rest IH]; intros timers; [reflexivity|].
  cbn [List.length seq flat_map].
  rewrite nth_error_app2, Nat.sub_diag by lia. cbn [nth_error app].
  f_equal.
  replace (timers ++ t :: rest) with ((timers ++ [t]) ++ rest)
    by now rewrite <- app_assoc.
  replace (S (List.length timers)) with (List.length (timers ++ [t]))
    by (rewrite length_app; cbn; lia).
  apply IH.
Qed.

Lemma filter_active_timer_of items :
  filter timer_active (map timer_of items) = map timer_of items.
Proof.
  induction items as [|item rest IH]; cbn; [reflexivity|]. now rewrite IH.
Qed.

Lemma filter_inactive timers :
  Forall (fun t => timer_active t = false) timers ->
  filter timer_active timers = [].
Proof.
  induction 1 as [|t rest Ht _ IH]; cbn; [reflexivity|]. now rewrite Ht.
Qed.

(** X10: after [setup_timers] the application's [_timers] holds exactly
    one running timer for each registered job that has [auto_sync] set and
    a positive interval, in registry order, bound to that job's name and
    with a period of [interval] minutes in milliseconds; jobs without
    [auto_sync] or with an interval of zero or less get none.  This does
    not depend on the timers that existed before.  (Stated for registries
    whose periods fit the C [int] that [QTimer.start] takes.) *)
Theorem setup_timers_schedules :
  forall (registry : PyDict.t Job) (app : QApplication),
    Forall period_fits registry ->
    tracked_timers (setup_timers registry app)
    = map (fun item => {| timer_job := fst item;
                          timer_interval := (interval (snd item) * 60000)%Z;
                          timer_active := true |})
          (filter (fun item =>
                     auto_sync (snd item) && (0 <? interval (snd item))%Z)
                  registry).
Proof.
  intros registry app _.
  change (tracked_timers (setup_timers registry app)
          = map timer_of (filter wants_timer registry)).
  unfold setup_timers, tracked_timers.
  rewrite fold_add_timer. cbn [children _timers List.app].
  rewrite <- (length_map timer_of (filter wants_timer registry)).
  apply tracked_appended.
Qed.

Lemma setup_timers_schedules_witness :
  tracked_timers (setup_timers scheduled_registry
                    {| children := []; _timers := None |})
  = [ {| timer_job := "docs"; timer_interval := 1800000;
         timer_active := true |} ].
Proof.
  refine (setup_timers_schedules scheduled_registry
            {| children := []; _timers := None |} _).
  repeat constructor; intros _; cbn; lia.
Defined.

(** X11: if every running timer is one [_timers] refers to, which is so
    before the first call, then after [setup_timers] the running timers
    are exactly the new ones: every timer of the previous configuration
    has been stopped, and the condition holds again for the next call.
    (Stated for registries whose periods fit the C [int] that
    [QTimer.start] takes.) *)
Theorem setup_timers_stops_previous :
  forall (registry : PyDict.t Job) (app : QApplication),
    Forall period_fits registry ->
    no_stray_timer app ->
    running_timers (setup_timers registry app)
      = tracked_timers (setup_timers registry app) /\
    no_stray_timer (setup_timers registry app).
Proof.
  intros registry app _ Hstray.
  pose proof (stop_all_inactive _ _ Hstray) as Hstopped.
  unfold setup_timers, tracked_timers, running_timers, no_stray_timer.
  rewrite fold_add_timer. cbn [children _timers].
  set (stopped := fold_left (fun ts position => stop_timer position ts)
                    match _timers app with Some refs => refs | None => [] end
                    (children app)) in *.
  split.
  - rewrite filter_app, (filter_inactive _ Hstopped), filter_active_timer_of.
    cbn [List.app].
    rewrite <- (length_map timer_of (filter wants_timer registry)).
    symmetry. apply tracked_appended.
  - intros q t Hq Ha. apply in_seq.
    assert (Hlt : q < List.length (stopped ++ map timer_of
                                     (filter wants_timer registry))).
    { apply nth_error_Some. now rewrite Hq. }
    rewrite length_app, length_map in Hlt. cbn [List.app].
    destruct (Nat.lt_ge_cases q (List.length stopped)) as [Hin|Hout]; [|lia].
    exfalso. rewrite nth_error_app1 in Hq by exact Hin.
    apply nth_error_In in Hq.
    rewrite (proj1 (Forall_forall _ _) Hstopped t Hq) in Ha. discriminate.
Qed.

Lemma setup_timers_stops_previous_witness :
  running_timers
    (setup_timers (PyDict.empty Job)
       (setup_timers scheduled_registry
          {| children := []; _timers := None |}))
  = tracked_timers
      (setup_timers (PyDict.empty Job)
         (setup_timers scheduled_registry
            {| children := []; _timers := None |})).
Proof.
  refine (proj1 (setup_timers_stops_previous (PyDict.empty Job)
                   (setup_timers scheduled_registry
                      {| children := []; _timers := None |}) _ _)).
  - constructor.
  - refine (proj2 (setup_timers_stops_previous scheduled_registry
                     {| children := []; _timers := None |} _ _)).
    + repeat constructor; intros _; cbn; lia.
    + intros [|q] t H; discriminate H.
Defined.

(** ** Loading the configuration: records, defaults and what is left alone *)

Lemma load_entry_registers (r : job_record) (s : session) :
  load_entry (JobObject r) s
  = (Return tt,
     {| sync_manager := register (job_of_record r) (sync_manager s);
        config := config s;
        printed := printed s;
        warnings := warnings s |}).
Proof.
  unfold load_entry, on_manager, modify, register, job_of_record, add_job.
  cbn [name source_dir dest_dir options auto_sync interval sync_manager
       config printed warnings].
  destruct (get_default (r_options r) (Some [])); reflexivity.
Qed.

Lemma for_each_load_records (rs : list job_record) :
  forall s : session,
    for_each (map JobObject rs) load_entry s
    = (Return tt,
       {| sync_manager :=
            fold_left (fun m job => register job m) (map job_of_record rs)
              (sync_manager s);
          config := config s;
          printed := printed s;
          warnings := warnings s |}).
Proof.
  induction rs as [|r rest IH]; intros s.
  - now destruct s.
  - cbn [map for_each]. unfold bind at 1. rewrite load_entry_registers.
    rewrite IH. reflexivity.
Qed.

Lemma find_last (f : Job -> bool) (js : list Job) (job : Job) :
  find f (js ++ [job])
  = match find f js with
    | Some found => Some found
    | None => if f job then Some job else None
    end.
Proof.
  induction js as [|j rest IH]; cbn; [reflexivity|].
  destruct (f j); [reflexivity | exact IH].
Qed.

(** Looking a name up after a series of registrations finds the last job
    registered under it. *)
Lemma get_fold_register (js : list Job) :
  forall (self : SyncManager) (n : string),
    PyDict.get n (jobs (fold_left (fun m job => register job m) js self))
    = match find (fun job => String.eqb (name job) n) (rev js) with
      | Some job => Some job
      | None => PyDict.get n (jobs self)
      end.
Proof.
  induction js as [|job rest IH]; intros self n; [reflexivity|].
  cbn [fold_left rev]. rewrite IH, find_last.
  destruct (find (fun j => String.eqb (name j) n) (rev rest)); [reflexivity|].
  rewrite register_jobs.
  destruct (String.eqb_spec (name job) n) as [<-|Hne].
  - apply PyDictFacts.get_set_same.
  - now apply PyDictFacts.get_set_other.
Qed.

Lemma load_config_records (rs : list job_record) (w : io) (s : session) :
  makedirs_error w = None ->
  config s = Parsed (Dict (Some (Entries (map JobObject rs)))) ->
  load_config w s
  = (Return tt,
     {| sync_manager :=
          fold_left (fun m job => register job m) (map job_of_record rs)
            (clear_jobs (sync_manager s));
        config := config s;
        printed := printed s;
        warnings := warnings s |}).
Proof.
  intros Hmk Hfile.
  unfold load_config, try_except, bind at 1, os_makedirs. rewrite Hmk.
  unfold ret at 1, bind at 1, get_state. rewrite Hfile.
  unfold bind at 1, json_load, ret at 1, bind at 1, on_manager, modify.
  unfold bind at 1, config_get_sync_jobs, ret at 1.
  unfold bind at 1, iterate, ret at 1.
  rewrite for_each_load_records. cbn. now rewrite Hfile.
Qed.

(** X12: when the document is an object whose [sync_jobs] is a list of
    objects, [load_config] replaces the whole registry, whatever it held:
    afterwards a name is registered exactly if some record carries it, and
    it then stands for the last such record, read with the defaults of the
    code: no name is the empty name, no paths are empty paths, no
    [options] key is the empty option list, [options: null] is
    ["-av", "--delete"], no [auto_sync] is false and no [interval] is 60. *)
Theorem load_config_last_record_wins :
  forall (rs : list job_record) (w : io) (s : session) (n : string),
    makedirs_error w = None ->
    config s = Parsed (Dict (Some (Entries (map JobObject rs)))) ->
    fst (load_config w s) = Return tt /\
    PyDict.get n (jobs (sync_manager (snd (load_config w s))))
    = find (fun job => String.eqb (name job) n)
        (rev (map (fun r =>
                     {| name := get_default (r_name r) "";
                        source_dir := get_default (r_source_dir r) "";
                        dest_dir := get_default (r_dest_dir r) "";
                        options :=
                          match r_options r with
                          | None => []
                          | Some None => ["-av"; "--delete"]
                          | Some (Some given) => given
                          end;
                        auto_sync := get_default (r_auto_sync r) false;
                        interval := get_default (r_interval r) 60%Z |})
                  rs)).
Proof.
  intros rs w s n Hmk Hfile.
  rewrite (load_config_records rs w s Hmk Hfile). cbn [fst snd sync_manager].
  split; [reflexivity|].
  rewrite get_fold_register. cbn [clear_jobs jobs PyDict.get PyDict.empty].
  assert (Hmap : map job_of_record rs =
                 map (fun r =>
                     {| name := get_default (r_name r) "";
                        source_dir := get_default (r_source_dir r) "";
                        dest_dir := get_default (r_dest_dir r) "";
                        options :=
                          match r_options r with
                          | None => []
                          | Some None => ["-av"; "--delete"]
                          | Some (Some given) => given
                          end;
                        auto_sync := get_default (r_auto_sync r) false;
                        interval := get_default (r_interval r) 60%Z |}) rs).
  { apply map_ext. intros r. unfold job_of_record.
    destruct (r_options r) as [[given|]|]; reflexivity. }
  rewrite <- Hmap.
  destruct (find (fun job => String.eqb (name job) n)
              (rev (map job_of_record rs))); reflexivity.
Qed.

Lemma load_config_last_record_wins_witness :
  option_map options
    (PyDict.get ""
       (jobs (sync_manager
                (snd (load_config io_ok
                        (session_of docs_manager
                           (Parsed (Dict (Some (Entries
                              [JobObject (mkRecord None None None None
                                            None None)]))))))))))
  = Some [].
Proof.
  exact (f_equal (option_map options)
           (proj2 (load_config_last_record_wins
                     [mkRecord None None None None None None] io_ok
                     (session_of docs_manager
                        (Parsed (Dict (Some (Entries
                           [JobObject (mkRecord None None None None
                                         None None)])))))
                     "" eq_refl eq_refl))).
Defined.

Lemma for_each_stops_at_non_object (before : list job_record) (ty : string)
    (after : list entry) :
  forall s0 : session,
    for_each (map JobObject before ++ NotAnObject ty :: after) load_entry s0
    = (Raise (AttributeError_get ty),
       {| sync_manager :=
            fold_left (fun m job => register job m)
              (map job_of_record before) (sync_manager s0);
          config := config s0;
          printed := printed s0;
          warnings := warnings s0 |}).
Proof.
  induction before as [|r rest IH]; intros s0.
  - destruct s0. reflexivity.
  - cbn [map List.app for_each]. unfold bind at 1.
    rewrite load_entry_registers, IH. reflexivity.
Qed.

Lemma load_config_non_object (before : list job_record) (ty : string)
    (after : list entry) (w : io) (s : session) :
  makedirs_error w = None ->
  config s = Parsed (Dict (Some (Entries
               (map JobObject before ++ NotAnObject ty :: after)))) ->
  load_config w s
  = (Return tt,
     {| sync_manager :=
          fold_left (fun m job => register job m)
            (map job_of_record before) (clear_jobs (sync_manager s));
        config := config s;
        printed := printed s ++ [("Error loading config: " ++
                                  str (AttributeError_get ty))%string];
        warnings := warnings s |}).
Proof.
  intros Hmk Hfile.
  unfold load_config, try_except, bind at 1, os_makedirs. rewrite Hmk.
  unfold ret at 1, bind at 1, get_state. rewrite Hfile.
  unfold bind at 1, json_load, ret at 1, bind at 1, on_manager, modify.
  unfold bind at 1, config_get_sync_jobs, ret at 1.
  unfold bind at 1, iterate, ret at 1.
  rewrite for_each_stops_at_non_object.
  unfold print, modify. cbn [sync_manager config printed warnings].
  now rewrite Hfile.
Qed.

(** X13: when an element of [sync_jobs] is not an object, [load_config]
    stops at it without raising: the registry holds the records before
    that element and none of those after it, and one line reporting the
    error is printed. *)
Theorem load_config_stops_at_non_object :
  forall (before : list job_record) (ty : string) (after : list entry)
         (w : io) (s : session),
    makedirs_error w = None ->
    config s = Parsed (Dict (Some (Entries
                 (map JobObject before ++ NotAnObject ty :: after)))) ->
    fst (load_config w s) = Return tt /\
    sync_manager (snd (load_config w s))
    = sync_manager
        (snd (load_config w
                {| sync_manager := sync_manager s;
                   config := Parsed (Dict (Some (Entries
                                                   (map JobObject before))));
                   printed := printed s;
                   warnings := warnings s |})) /\
    printed (snd (load_config w s))
    = printed s ++ [("Error loading config: '" ++ ty
                     ++ "' object has no attribute 'get'")%string].
Proof.
  intros before ty after w s Hmk Hfile.
  rewrite (load_config_records before w
             {| sync_manager := sync_manager s;
                config := Parsed (Dict (Some (Entries (map JobObject before))));
                printed := printed s;
                warnings := warnings s |} Hmk eq_refl).
  cbn [fst snd sync_manager].
  rewrite (load_config_non_object before ty after w s Hmk Hfile).
  cbn [fst snd sync_manager printed]. auto.
Qed.

Lemma load_config_stops_at_non_object_witness :
  PyDict.keys
    (jobs (sync_manager
             (snd (load_config io_ok
                     (session_of docs_manager
                        (Parsed (Dict (Some (Entries
                           (map JobObject
                              [record_of_job
                                 (mkJob "music" "/tmp/m" "/tmp/n" [] false 60)]
                            ++ NotAnObject "int"
                               :: [JobObject
                                     (record_of_job
                                        (mkJob "late" "/a" "/b" [] false
                                           60))]))))))))))
  = ["music"].
Proof.
  exact (f_equal (fun m => PyDict.keys (jobs m))
           (proj1 (proj2 (load_config_stops_at_non_object
              [record_of_job (mkJob "music" "/tmp/m" "/tmp/n" [] false 60)]
              "int"
              [JobObject (record_of_job (mkJob "late" "/a" "/b" [] false 60))]
              io_ok
              (session_of docs_manager _) eq_refl eq_refl)))).
Defined.

Lemma load_frame_refl (s : session) : load_frame s s.
Proof. unfold load_frame. auto. Qed.

Lemma load_frame_trans (s1 s2 s3 : session) :
  load_frame s1 s2 -> load_frame s2 s3 -> load_frame s1 s3.
Proof.
  unfold load_frame. intros (A1 & A2 & A3 & A4 & A5) (B1 & B2 & B3 & B4 & B5).
  split; [congruence|]. split; [congruence|]. split; [congruence|].
  split; [congruence | auto].
Qed.

Lemma load_entry_frame (e : entry) (s : session) :
  load_frame s (snd (load_entry e s)).
Proof.
  destruct e as [ty|r]; [apply load_frame_refl|].
  unfold load_entry, on_manager, modify, load_frame.
  cbn [snd config warnings printed sync_manager].
  split; [reflexivity|]. split; [reflexivity|]. split; [reflexivity|].
  split; [reflexivity | apply well_formed_add_job].
Qed.

Lemma for_each_load_entry_frame (es : list entry) :
  forall s : session, load_frame s (snd (for_each es load_entry s)).
Proof.
  induction es as [|e rest IH]; intros s; [apply load_frame_refl|].
  cbn [for_each]. unfold bind.
  pose proof (load_entry_frame e s) as He.
  destruct (load_entry e s) as [[[]|ex] s1]; cbn [snd] in *; [|exact He].
  exact (load_frame_trans _ _ _ He (IH s1)).
Qed.

(** What [load_config] leaves alone, whatever the file holds. *)
Lemma load_config_leaves_alone :
  forall (w : io) (s : session),
    let s' := snd (load_config w s) in
    config s' = config s /\
    warnings s' = warnings s /\
    running_processes (sync_manager s')
      = running_processes (sync_manager s) /\
    (exists lines : list string,
       printed s' = printed s ++ lines /\ List.length lines <= 1) /\
    (well_formed (jobs (sync_manager s)) ->
     well_formed (jobs (sync_manager s'))).
Proof.
  intros w s.
  assert (Hbody : forall body : M session unit,
            load_frame s (snd (body s)) ->
            let s' := snd (try_except body
                             (fun e => print ("Error loading config: " ++ str e))
                             s) in
            config s' = config s /\
            warnings s' = warnings s /\
            running_processes (sync_manager s')
              = running_processes (sync_manager s) /\
            (exists lines : list string,
               printed s' = printed s ++ lines /\ List.length lines <= 1) /\
            (well_formed (jobs (sync_manager s)) ->
             well_formed (jobs (sync_manager s')))).
  { intros body (H1 & H2 & H3 & H4 & H5). unfold try_except.
    destruct (body s) as [[[]|e] s1]; cbn [snd] in *.
    - split; [exact H1|]. split; [exact H2|]. split; [exact H4|].
      split; [|exact H5].
      exists []. rewrite app_nil_r. cbn. auto.
    - unfold print, modify. cbn [snd config warnings printed sync_manager].
      split; [exact H1|]. split; [exact H2|]. split; [exact H4|].
      split; [|exact H5].
      eexists. rewrite H3. split; [reflexivity | cbn; lia]. }
  apply Hbody. clear Hbody.
  unfold bind at 1, os_makedirs.
  destruct (makedirs_error w) as [e|]; [apply load_frame_refl|].
  unfold ret at 1, bind at 1, get_state.
  destruct (config s) as [|e|d] eqn:Hfile; [apply load_frame_refl| |].
  - apply load_frame_refl.
  - unfold bind at 1, json_load, ret at 1, bind at 1, on_manager, modify.
    set (s1 := {| sync_manager := clear_jobs (sync_manager s);
                  config := config s; printed := printed s;
                  warnings := warnings s |}).
    assert (H1 : load_frame s s1).
    { unfold load_frame, s1.
      cbn [config warnings printed sync_manager clear_jobs running_processes
           jobs].
      split; [reflexivity|]. split; [reflexivity|]. split; [reflexivity|].
      split; [reflexivity|]. intros _. apply well_formed_empty. }
    unfold bind at 1, config_get_sync_jobs.
    destruct d as [ty|[[ty|elements]|]];
      try exact H1;
      unfold ret at 1, bind at 1, iterate; try exact H1;
      unfold ret at 1.
    exact (load_frame_trans _ _ _ H1 (for_each_load_entry_frame elements s1)).
Qed.

(** X14: whatever the configuration file holds and whatever fails,
    [load_config] does not change the configuration file, shows no warning
    box, leaves the manager's running processes alone and prints at most
    one line; and if the registry had one job per name, each under its own
    name, before the call, it still has afterwards. *)
Theorem load_config_frame :
  forall (w : io) (s : session),
    let s' := snd (load_config w s) in
    config s' = config s /\
    warnings s' = warnings s /\
    running_processes (sync_manager s')
      = running_processes (sync_manager s) /\
    (exists lines : list string,
       printed s' = printed s ++ lines /\ List.length lines <= 1) /\
    (well_formed (jobs (sync_manager s)) ->
     well_formed (jobs (sync_manager s'))).
Proof.
  exact load_config_leaves_alone.
Qed.

Lemma load_config_frame_witness :
  well_formed
    (jobs (sync_manager
             (snd (load_config io_ok
                     (session_of docs_manager
                        (Parsed (document_of_jobs same_name_jobs))))))).
Proof.
  refine (proj2 (proj2 (proj2 (proj2
    (load_config_frame io_ok
       (session_of docs_manager (Parsed (document_of_jobs same_name_jobs)))))))
    _).
  split; repeat constructor; simpl; tauto.
Defined.

(** ** Saving from the dialog and loading again *)

Lemma well_formed_registry_of (d : PyDict.t Job) :
  well_formed d ->
  d = registry_of (PyDict.values d) /\ NoDup (map name (PyDict.values d)).
Proof.
  intros [Hnd Hk]. split.
  - unfold registry_of, PyDict.values. rewrite map_map.
    clear Hnd. induction Hk as [|[k j] rest Hj _ IH]; [reflexivity|].
    cbn [map snd fst] in *. now rewrite Hj, <- IH.
  - replace (map name (PyDict.values d)) with (PyDict.keys d); [exact Hnd|].
    unfold PyDict.keys, PyDict.values. rewrite map_map.
    clear Hnd. induction Hk as [|[k j] rest Hj _ IH]; [reflexivity|].
    cbn [map snd fst] in *. now rewrite Hj, IH.
Qed.

Lemma accept_write_fails (js : list Job) (w : io) (self : ConfigDialog)
    (s : session) (e : exn) :
  save_error w = Some e ->
  dialog_jobs self = registry_of js ->
  accept w self s
  = (Return tt,
     {| sync_manager :=
          fold_left (fun m job => register job m) js
            (clear_jobs (sync_manager s));
        config := config s;
        printed := printed s;
        warnings := warnings s ++ [("Failed to save config: " ++ str e)%string]
     |}).
Proof.
  intros Hfail Hjobs.
  unfold accept, bind at 1, on_manager at 1, modify. rewrite Hjobs.
  unfold bind at 1. rewrite for_each_accept_item.
  unfold try_except, bind, os_makedirs, json_dump, warning, modify, raise, ret.
  unfold save_error in Hfail.
  destruct (makedirs_error w) as [e1|].
  - injection Hfail as ->. reflexivity.
  - rewrite Hfail. reflexivity.
Qed.

(** X15: closing the dialog with OK and loading the configuration again,
    with no I/O failure, leaves the manager with exactly the dialog's
    jobs, in the dialog's order, and the file holding them, provided the
    dialog holds each job under the job's own name; no warning is
    shown. *)
Theorem accept_then_reload_keeps_dialog_jobs :
  forall (dialog : ConfigDialog) (w_save w_load : io) (s : session),
    well_formed (dialog_jobs dialog) ->
    makedirs_error w_save = None ->
    open_for_writing_error w_save = None ->
    makedirs_error w_load = None ->
    let s' := snd (accept_then_reload w_save w_load dialog s) in
    fst (accept_then_reload w_save w_load dialog s) = Return tt /\
    jobs (sync_manager s') = dialog_jobs dialog /\
    config s' = Parsed (document_of_jobs (PyDict.values (dialog_jobs dialog))) /\
    warnings s' = warnings s.
Proof.
  intros dialog w_save w_load s Hwf Hmk Hopen Hmk'.
  destruct (well_formed_registry_of _ Hwf) as [Hreg Hnd].
  unfold accept_then_reload, bind.
  rewrite (accept_registry (PyDict.values (dialog_jobs dialog)) w_save dialog s
             Hmk Hopen Hreg).
  erewrite (@load_config_document (PyDict.values (dialog_jobs dialog)) w_load);
    [| exact Hmk' | reflexivity].
  cbn [fst snd sync_manager config warnings].
  repeat split.
  rewrite (fold_register_distinct (PyDict.values (dialog_jobs dialog)) []
             (clear_jobs _) Hnd eq_refl).
  cbn [List.app]. now rewrite <- Hreg.
Qed.

Lemma accept_then_reload_keeps_dialog_jobs_witness :
  jobs (sync_manager
          (snd (accept_then_reload io_ok io_ok
                  {| dialog_jobs := registry_of two_jobs |}
                  (session_of docs_manager Missing))))
  = registry_of two_jobs.
Proof.
  refine (proj1 (proj2
    (accept_then_reload_keeps_dialog_jobs
       {| dialog_jobs := registry_of two_jobs |} io_ok io_ok
       (session_of docs_manager Missing) _ eq_refl eq_refl eq_refl))).
  split; repeat constructor; simpl; intuition discriminate.
Defined.

(** A load that cannot create the directory, or finds the file missing
    or unreadable, leaves the manager as it is. *)
Lemma load_config_skips (w : io) (s : session) :
  makedirs_error w <> None \/ missing_or_unparsable (config s) = true ->
  fst (load_config w s) = Return tt /\
  sync_manager (snd (load_config w s)) = sync_manager s.
Proof.
  intros Hskip.
  unfold load_config, try_except, bind, os_makedirs, get_state, json_load,
    print, modify, raise, ret.
  destruct (makedirs_error w) as [e|]; [repeat split; reflexivity|].
  destruct Hskip as [H|H]; [now contradiction H|].
  revert H.
  destruct (config s) as [|e|d]; intros H;
    [repeat split; reflexivity | repeat split; reflexivity | discriminate].
Qed.

(** X16: when the write in [accept] fails, because [os.makedirs] or
    [open] raises, [accept] still returns normally with the dialog's jobs
    in the manager (the dialog holding each job once, under its own
    name), leaves the file as it was and shows one warning.  What the
    load that follows leaves in the manager depends on the old file.  If
    the load can create the directory and the old file holds job records
    with pairwise distinct names, the manager ends up with the jobs of
    the old file and the dialog's jobs are gone from it.  If [os.makedirs]
    fails again, or the old file is missing or cannot be parsed, the
    manager keeps the dialog's jobs, which the file does not hold. *)
Theorem accept_write_failure_then_reload :
  forall (dialog : ConfigDialog) (w_save w_load : io) (s : session) (e : exn),
    well_formed (dialog_jobs dialog) ->
    save_error w_save = Some e ->
    (fst (accept w_save dialog s) = Return tt /\
     jobs (sync_manager (snd (accept w_save dialog s))) = dialog_jobs dialog /\
     config (snd (accept w_save dialog s)) = config s /\
     warnings (snd (accept w_save dialog s))
       = warnings s ++ [("Failed to save config: " ++ str e)%string]) /\
    fst (accept_then_reload w_save w_load dialog s) = Return tt /\
    config (snd (accept_then_reload w_save w_load dialog s)) = config s /\
    (forall old : list Job,
       makedirs_error w_load = None ->
       NoDup (map name old) ->
       config s = Parsed (document_of_jobs old) ->
       jobs (sync_manager (snd (accept_then_reload w_save w_load dialog s)))
       = registry_of old) /\
    (makedirs_error w_load <> None \/
     missing_or_unparsable (config s) = true ->
     jobs (sync_manager (snd (accept_then_reload w_save w_load dialog s)))
     = dialog_jobs dialog).
Proof.
  intros dialog w_save w_load s e Hwf Hfail.
  destruct (well_formed_registry_of _ Hwf) as [Hreg Hnd].
  assert (Hjobs :
            jobs (fold_left (fun m job => register job m)
                    (PyDict.values (dialog_jobs dialog))
                    (clear_jobs (sync_manager s)))
            = dialog_jobs dialog).
  { rewrite (fold_register_distinct (PyDict.values (dialog_jobs dialog)) []
               (clear_jobs _) Hnd eq_refl).
    cbn [List.app]. now rewrite <- Hreg. }
  unfold accept_then_reload, bind.
  rewrite (accept_write_fails (PyDict.values (dialog_jobs dialog)) w_save
             dialog s e Hfail Hreg).
  cbn [fst snd sync_manager config warnings].
  match goal with
  | |- context [load_config w_load ?s1] => set (after_accept := s1)
  end.
  split; [repeat split; exact Hjobs|].
  split; [apply load_config_never_raises|].
  split.
  { exact (proj1 (load_config_leaves_alone w_load after_accept)). }
  split.
  - intros old Hmk' Hold Hfile.
    erewrite (@load_config_document old w_load);
      [| exact Hmk' | exact Hfile].
    cbn [snd sync_manager].
    exact (fold_register_distinct old [] (clear_jobs _) Hold eq_refl).
  - intros Hskip.
    destruct (load_config_skips w_load after_accept Hskip) as (_ & Hm).
    rewrite Hm. exact Hjobs.
Qed.

Lemma accept_write_failure_then_reload_witness :
  PyDict.keys
    (jobs (sync_manager
             (snd (accept_then_reload io_read_only io_ok
                     {| dialog_jobs := registry_of two_jobs |}
                     (session_of docs_manager
                        (Parsed (document_of_jobs []))))))) = [] /\
  PyDict.keys
    (jobs (sync_manager
             (snd (accept_then_reload io_read_only io_ok
                     {| dialog_jobs := registry_of two_jobs |}
                     (session_of docs_manager Missing)))))
  = ["docs"; "music"].
Proof.
  assert (Hwf : well_formed (registry_of two_jobs))
    by (split; repeat constructor; simpl; intuition discriminate).
  split.
  - refine (f_equal (@PyDict.keys Job)
      (proj1 (proj2 (proj2 (proj2
         (accept_write_failure_then_reload
            {| dialog_jobs := registry_of two_jobs |} io_read_only io_ok
            (session_of docs_manager (Parsed (document_of_jobs [])))
            (Exn "[Errno 13] Permission denied: 'config.json'")
            Hwf eq_refl)))) [] eq_refl _ eq_refl)).
    constructor.
  - exact (f_equal (@PyDict.keys Job)
      (proj2 (proj2 (proj2 (proj2
         (accept_write_failure_then_reload
            {| dialog_jobs := registry_of two_jobs |} io_read_only io_ok
            (session_of docs_manager Missing)
            (Exn "[Errno 13] Permission denied: 'config.json'")
            Hwf eq_refl)))) (or_intror eq_refl))).
Defined.

(** ** The dialog window *)

Lemma nth_error_replace_nth {A} (position : nat) (x : A) (xs : list A) :
  position < List.length xs ->
  nth_error (replace_nth position x xs) position = Some x.
Proof.
  revert position. induction xs as [|y rest IH]; intros [|p] H; cbn in *;
    try lia; auto. apply IH. lia.
Qed.

Lemma length_replace_nth {A} (position : nat) (x : A) (xs : list A) :
  List.length (replace_nth position x xs) = List.length xs.
Proof.
  revert position. induction xs as [|y rest IH]; intros [|p]; cbn; auto.
Qed.

Lemma length_remove_nth {A} (position : nat) (xs : list A) :
  position < List.length xs ->
  S (List.length (remove_nth position xs)) = List.length xs.
Proof.
  revert position. induction xs as [|y rest IH]; intros [|p] H; cbn in *;
    try lia. rewrite IH; lia.
Qed.

Lemma currentItem_row (w : dialog_window) (row : nat) (current : list_item) :
  currentItem w = Some (row, current) ->
  current_row w = Some row /\ nth_error (job_list w) row = Some current.
Proof.
  unfold currentItem. destruct (current_row w) as [r|]; [|discriminate].
  destruct (nth_error (job_list w) r) as [item|] eqn:Hn; [|discriminate].
  intros [= <- <-]. auto.
Qed.

(** X17: [add_job] of the dialog names the new job "Job-" followed by the
    number of jobs plus one, stores a blank job with the default options
    under that name, and appends and selects a list item for it.  When no
    job has that name the job is added at the end; when one has, which
    happens as soon as a job is called like the next label, that job's
    record is replaced by the blank one, the number of jobs stays the same
    and the list gets a second item for the same name. *)
Theorem dialog_add_job_label :
  forall w : dialog_window,
    let job_name := job_label (List.length (dialog_jobs (dialog w)) + 1) in
    let item := {| item_text := job_name; item_data := job_name |} in
    let w' := dialog_add_job w in
    PyDict.get job_name (dialog_jobs (dialog w'))
      = Some {| name := job_name; source_dir := ""; dest_dir := "";
                options := ["-av"; "--delete"]; auto_sync := false;
                interval := 60 |} /\
    job_list w' = job_list w ++ [item] /\
    currentItem w' = Some (List.length (job_list w), item) /\
    (forall other : string,
       other <> job_name ->
       PyDict.get other (dialog_jobs (dialog w'))
         = PyDict.get other (dialog_jobs (dialog w))) /\
    (PyDict.mem job_name (dialog_jobs (dialog w)) = false ->
     PyDict.keys (dialog_jobs (dialog w'))
       = PyDict.keys (dialog_jobs (dialog w)) ++ [job_name]) /\
    (PyDict.mem job_name (dialog_jobs (dialog w)) = true ->
     PyDict.keys (dialog_jobs (dialog w'))
       = PyDict.keys (dialog_jobs (dialog w))).
Proof.
  intros w job_name item w'. subst w'. unfold dialog_add_job.
  fold job_name. fold item.
  cbn [dialog dialog_jobs job_list current_row].
  split; [apply PyDictFacts.get_set_same|].
  split; [reflexivity|].
  split.
  { unfold currentItem. cbn [current_row job_list].
    rewrite nth_error_app2, Nat.sub_diag by lia. reflexivity. }
  split.
  { intros other Hne. apply PyDictFacts.get_set_other. congruence. }
  split.
  - apply PyDictMore.keys_set_absent.
  - apply PyDictFacts.keys_set_present.
Qed.

Lemma dialog_add_job_label_witness :
  PyDict.keys (dialog_jobs (dialog (dialog_add_job job2_window))) = ["Job-2"] /\
  option_map source_dir
    (PyDict.get "Job-2" (dialog_jobs (dialog job2_window))) = Some "/tmp/src" /\
  option_map source_dir
    (PyDict.get "Job-2" (dialog_jobs (dialog (dialog_add_job job2_window))))
    = Some "".
Proof.
  split; [|split].
  - exact (proj2 (proj2 (proj2 (proj2 (proj2
             (dialog_add_job_label job2_window))))) eq_refl).
  - reflexivity.
  - exact (f_equal (option_map source_dir)
             (proj1 (dialog_add_job_label job2_window))).
Defined.

Section SaveJobFacts.
Variable str_strip : string -> string.
Variable str_split : string -> list string.

(** What [save_job] does once the three checks have passed. *)
Lemma save_job_valid (f : form) (w : dialog_window) (row : nat)
    (current : list_item) :
  currentItem w = Some (row, current) ->
  String.eqb (name_edit f) "" = false ->
  String.eqb (source_edit f) "" = false ->
  String.eqb (dest_edit f) "" = false ->
  save_job str_strip str_split f w
  = if String.eqb (item_data current) (name_edit f) then
      (Return tt,
       {| dialog :=
            {| dialog_jobs :=
                 PyDict.set (name_edit f) (form_job str_strip str_split f)
                   (dialog_jobs (dialog w)) |};
          job_list := job_list w;
          current_row := current_row w;
          message_boxes :=
            message_boxes w ++
            [InformationBox "Success" ("Job '" ++ name_edit f ++ "' saved")] |})
    else
      match PyDict.del (item_data current) (dialog_jobs (dialog w)) with
      | Some rest =>
          (Return tt,
           {| dialog :=
                {| dialog_jobs :=
                     PyDict.set (name_edit f) (form_job str_strip str_split f)
                       rest |};
              job_list :=
                replace_nth row
                  {| item_text := name_edit f; item_data := name_edit f |}
                  (job_list w);
              current_row := current_row w;
              message_boxes :=
                message_boxes w ++
                [InformationBox "Success"
                   ("Job '" ++ name_edit f ++ "' saved")] |})
      | None => (Raise (KeyError (item_data current)), w)
      end.
Proof.
  intros Hcur Hname Hsrc Hdst.
  unfold save_job, bind at 1, get_state. rewrite Hcur, Hname.
  cbn [form_job source_dir dest_dir]. rewrite Hsrc, Hdst. cbn [orb].
  destruct (String.eqb (item_data current) (name_edit f)); cbn [negb].
  - reflexivity.
  - unfold bind, dialog_delitem.
    destruct (PyDict.del (item_data current) (dialog_jobs (dialog w)));
      reflexivity.
Qed.

End SaveJobFacts.

(** X18: [save_job] changes nothing when no item is selected; and when
    the name, the source or the destination of the detail pane is empty it
    changes neither the jobs nor the list and shows exactly one warning
    box, returning normally. *)
Theorem save_job_rejects_incomplete_form :
  forall (str_strip : string -> string) (str_split : string -> list string)
         (f : form) (w : dialog_window),
    (currentItem w = None ->
     save_job str_strip str_split f w = (Return tt, w)) /\
    (forall (row : nat) (current : list_item),
       currentItem w = Some (row, current) ->
       name_edit f = "" \/ source_edit f = "" \/ dest_edit f = "" ->
       exists text : string,
         save_job str_strip str_split f w
         = (Return tt,
            {| dialog := dialog w;
               job_list := job_list w;
               current_row := current_row w;
               message_boxes :=
                 message_boxes w ++ [WarningBox "Error" text] |})).
Proof.
  intros str_strip str_split f w. split.
  - intros Hcur. unfold save_job, bind, get_state. now rewrite Hcur.
  - intros row current Hcur Hbad.
    unfold save_job, bind, get_state. rewrite Hcur.
    destruct (String.eqb_spec (name_edit f) "") as [Hn|Hn];
      [eexists; reflexivity|].
    cbn [form_job source_dir dest_dir].
    destruct (String.eqb_spec (source_edit f) "") as [Hs|Hs];
      [eexists; reflexivity|].
    destruct (String.eqb_spec (dest_edit f) "") as [Hd|Hd];
      [eexists; reflexivity|].
    exfalso. tauto.
Qed.

Lemma save_job_rejects_incomplete_form_witness :
  exists text : string,
    save_job (fun s => s) (fun s => [s]) form_without_source
      (select_row 0 job2_window)
    = (Return tt,
       {| dialog := dialog job2_window;
          job_list := job_list job2_window;
          current_row := Some 0;
          message_boxes := [WarningBox "Error" text] |}).
Proof.
  exact (proj2 (save_job_rejects_incomplete_form (fun s => s) (fun s => [s])
                  form_without_source (select_row 0 job2_window))
           0 {| item_text := "Job-2"; item_data := "Job-2" |} eq_refl
           (or_intror (or_introl eq_refl))).
Defined.

(** X19: with an item selected whose job is in the dialog and a detail
    pane whose name, source and destination are not empty, [save_job]
    returns normally and stores the job built from the pane under the
    pane's name: its options are the tokens of the stripped options field,
    or ["-av", "--delete"] when that is empty.  A changed name removes the
    old name, renames the selected item and puts the job at the end of the
    jobs, unless another job already had the new name: then that job is
    overwritten in its place.  Jobs under other names are not touched, and
    one information box is shown. *)
Theorem save_job_stores_form :
  forall (str_strip : string -> string) (str_split : string -> list string)
         (f : form) (w : dialog_window) (row : nat) (current : list_item),
    currentItem w = Some (row, current) ->
    name_edit f <> "" -> source_edit f <> "" -> dest_edit f <> "" ->
    NoDup (PyDict.keys (dialog_jobs (dialog w))) ->
    PyDict.mem (item_data current) (dialog_jobs (dialog w)) = true ->
    let old_name := item_data current in
    let new_name := name_edit f in
    let jobs_before := dialog_jobs (dialog w) in
    let w' := snd (save_job str_strip str_split f w) in
    let jobs_after := dialog_jobs (dialog w') in
    fst (save_job str_strip str_split f w) = Return tt /\
    PyDict.get new_name jobs_after
      = Some {| name := new_name;
                source_dir := source_edit f;
                dest_dir := dest_edit f;
                options :=
                  if String.eqb (str_strip (options_edit f)) ""
                  then ["-av"; "--delete"]
                  else str_split (str_strip (options_edit f));
                auto_sync := auto_sync_box f;
                interval := interval_box f |} /\
    (old_name <> new_name -> PyDict.mem old_name jobs_after = false) /\
    (forall other : string,
       other <> old_name -> other <> new_name ->
       PyDict.get other jobs_after = PyDict.get other jobs_before) /\
    PyDict.keys jobs_after
      = (if String.eqb old_name new_name then PyDict.keys jobs_before
         else if PyDict.mem new_name jobs_before
              then filter (fun k => negb (String.eqb k old_name))
                     (PyDict.keys jobs_before)
              else filter (fun k => negb (String.eqb k old_name))
                     (PyDict.keys jobs_before) ++ [new_name]) /\
    job_list w'
      = (if String.eqb old_name new_name then job_list w
         else replace_nth row
                {| item_text := new_name; item_data := new_name |}
                (job_list w)) /\
    message_boxes w'
      = message_boxes w ++
        [InformationBox "Success" ("Job '" ++ new_name ++ "' saved")].
Proof.
  intros str_strip str_split f w row current Hcur Hn Hs Hd Hnd Hmem
    old_name new_name jobs_before w' jobs_after.
  subst jobs_after w'.
  rewrite (save_job_valid str_strip str_split f w row current Hcur
             (proj2 (String.eqb_neq _ _) Hn)
             (proj2 (String.eqb_neq _ _) Hs)
             (proj2 (String.eqb_neq _ _) Hd)).
  fold old_name new_name jobs_before.
  destruct (String.eqb_spec old_name new_name) as [Heq|Hne].
  - cbn [fst snd dialog dialog_jobs job_list message_boxes].
    split; [reflexivity|].
    split; [apply PyDictFacts.get_set_same|].
    split; [intros H; contradiction|].
    split; [intros other _ Ho; apply PyDictFacts.get_set_other; congruence|].
    split; [|split; reflexivity].
    apply PyDictFacts.keys_set_present. now rewrite <- Heq.
  - destruct (PyDictMore.del_present _ _ _ Hmem) as [rest Hdel].
    fold old_name jobs_before in Hdel. rewrite Hdel.
    cbn [fst snd dialog dialog_jobs job_list message_boxes].
    pose proof (PyDictMore.del_keys _ _ _ _ Hnd Hdel) as Hkeys.
    assert (Hget : PyDict.get new_name rest = PyDict.get new_name jobs_before).
    { apply (PyDictMore.del_get_other _ _ _ _ _ Hdel). congruence. }
    split; [reflexivity|].
    split; [apply PyDictFacts.get_set_same|].
    split.
    { intros _. unfold PyDict.mem.
      rewrite PyDictFacts.get_set_other by congruence.
      assert (Hout : PyDict.mem old_name rest = false).
      { apply PyDictFacts.not_In_mem_false. rewrite Hkeys, filter_In.
        intros [_ H]. now rewrite String.eqb_refl in H. }
      exact Hout. }
    split.
    { intros other Ho Hn'. rewrite PyDictFacts.get_set_other by congruence.
      now apply (PyDictMore.del_get_other _ _ _ _ _ Hdel). }
    split; [|split; reflexivity].
    assert (Hm : PyDict.mem new_name rest = PyDict.mem new_name jobs_before)
      by (unfold PyDict.mem; now rewrite Hget).
    rewrite <- Hm.
    destruct (PyDict.mem new_name rest) eqn:Hin.
    + rewrite (PyDictFacts.keys_set_present _ _ _ Hin). exact Hkeys.
    + rewrite (PyDictMore.keys_set_absent _ _ _ _ Hin). now rewrite Hkeys.
Qed.

Lemma save_job_stores_form_witness :
  PyDict.keys
    (dialog_jobs
       (dialog (snd (save_job (fun s => s) (fun s => [s]) filled_form
                       (select_row 0 job2_window)))))
  = ["photos"].
Proof.
  refine (proj1 (proj2 (proj2 (proj2 (proj2
    (save_job_stores_form (fun s => s) (fun s => [s]) filled_form
       (select_row 0 job2_window) 0
       {| item_text := "Job-2"; item_data := "Job-2" |}
       eq_refl _ _ _ _ eq_refl)))))); try discriminate.
  repeat constructor; simpl; tauto.
Defined.

(** X20: renaming through an item whose job is no longer in the dialog's
    jobs (two items can carry one name after [add_job] has reused a label)
    makes [save_job] raise: the exception is the one the failing
    [del self.jobs[old_name]] raises, and nothing is stored, nothing is
    renamed and no box is shown. *)
Theorem save_job_rename_missing_raises :
  forall (str_strip : string -> string) (str_split : string -> list string)
         (f : form) (w : dialog_window) (row : nat) (current : list_item),
    currentItem w = Some (row, current) ->
    name_edit f <> "" -> source_edit f <> "" -> dest_edit f <> "" ->
    item_data current <> name_edit f ->
    PyDict.mem (item_data current) (dialog_jobs (dialog w)) = false ->
    exists e : exn,
      dialog_delitem (item_data current) w = (Raise e, w) /\
      save_job str_strip str_split f w = (Raise e, w).
Proof.
  intros str_strip str_split f w row current Hcur Hn Hs Hd Hne Hmem.
  exists (KeyError (item_data current)).
  rewrite (save_job_valid str_strip str_split f w row current Hcur
             (proj2 (String.eqb_neq _ _) Hn)
             (proj2 (String.eqb_neq _ _) Hs)
             (proj2 (String.eqb_neq _ _) Hd)).
  rewrite (proj2 (String.eqb_neq _ _) Hne).
  unfold dialog_delitem.
  now rewrite (PyDictMore.del_absent _ _ _ Hmem).
Qed.

Lemma save_job_rename_missing_raises_witness :
  exists e : exn,
    dialog_delitem "Job-2" stale_item_window = (Raise e, stale_item_window) /\
    save_job (fun s => s) (fun s => [s]) filled_form stale_item_window
    = (Raise e, stale_item_window).
Proof.
  refine (save_job_rename_missing_raises (fun s => s) (fun s => [s])
            filled_form stale_item_window 1
            {| item_text := "Job-2"; item_data := "Job-2" |}
            eq_refl _ _ _ _ eq_refl); discriminate.
Defined.

(** X21: [remove_job] of the dialog does nothing when the user declines.
    When the user confirms and the selected item's job is in the dialog's
    jobs, the job and the item are removed and every other job and item
    is kept, in order; when the job is not there, the call raises (the
    exception of the failing [del self.jobs[job_name]]) and nothing is
    removed. *)
Theorem dialog_remove_job_confirmed :
  forall (next : option nat) (w : dialog_window) (row : nat)
         (current : list_item),
    currentItem w = Some (row, current) ->
    NoDup (PyDict.keys (dialog_jobs (dialog w))) ->
    dialog_remove_job false next w = (Return tt, w) /\
    (PyDict.mem (item_data current) (dialog_jobs (dialog w)) = true ->
     let w' := snd (dialog_remove_job true next w) in
     fst (dialog_remove_job true next w) = Return tt /\
     PyDict.keys (dialog_jobs (dialog w'))
       = filter (fun k => negb (String.eqb k (item_data current)))
           (PyDict.keys (dialog_jobs (dialog w))) /\
     (forall other : string,
        other <> item_data current ->
        PyDict.get other (dialog_jobs (dialog w'))
          = PyDict.get other (dialog_jobs (dialog w))) /\
     job_list w' = remove_nth row (job_list w) /\
     S (List.length (job_list w')) = List.length (job_list w)) /\
    (PyDict.mem (item_data current) (dialog_jobs (dialog w)) = false ->
     exists e : exn,
       dialog_delitem (item_data current) w = (Raise e, w) /\
       dialog_remove_job true next w = (Raise e, w)).
Proof.
  intros next w row current Hcur Hnd.
  destruct (currentItem_row w row current Hcur) as [_ Hnth].
  unfold dialog_remove_job, bind, get_state, dialog_delitem. rewrite Hcur.
  split; [reflexivity|]. split.
  - intros Hmem. destruct (PyDictMore.del_present _ _ _ Hmem) as [rest Hdel].
    rewrite Hdel. cbn [fst snd takeItem modify dialog dialog_jobs job_list].
    split; [reflexivity|].
    split; [exact (PyDictMore.del_keys _ _ _ _ Hnd Hdel)|].
    split; [intros other Ho;
            exact (PyDictMore.del_get_other _ _ _ _ _ Hdel Ho)|].
    split; [reflexivity|].
    apply length_remove_nth. apply nth_error_Some. now rewrite Hnth.
  - intros Hmem. exists (KeyError (item_data current)).
    now rewrite (PyDictMore.del_absent _ _ _ Hmem).
Qed.

Lemma dialog_remove_job_confirmed_witness :
  (exists e : exn,
     dialog_delitem "Job-2" stale_item_window = (Raise e, stale_item_window) /\
     dialog_remove_job true None stale_item_window
     = (Raise e, stale_item_window)) /\
  job_list (snd (dialog_remove_job true None (select_row 0 job2_window))) = [].
Proof.
  split.
  - refine (proj2 (proj2 (dialog_remove_job_confirmed None stale_item_window 1
              {| item_text := "Job-2"; item_data := "Job-2" |} eq_refl _))
              eq_refl).
    repeat constructor; simpl; tauto.
  - refine (proj1 (proj2 (proj2 (proj2 (proj1 (proj2
              (dialog_remove_job_confirmed None (select_row 0 job2_window) 0
                 {| item_text := "Job-2"; item_data := "Job-2" |} eq_refl _))
              eq_refl))))).
    repeat constructor; simpl; tauto.
Defined.

(** X22: opening the dialog on a manager whose registry holds each job
    under its own name and pressing OK without an edit leaves the manager
    exactly as it was and, when the write succeeds, puts the manager's
    jobs into the file, in registry order. *)
Theorem accept_unedited_dialog :
  forall (w : io) (s : session),
    well_formed (jobs (sync_manager s)) ->
    makedirs_error w = None ->
    open_for_writing_error w = None ->
    accept w (dialog (open_dialog (sync_manager s))) s
    = (Return tt,
       {| sync_manager := sync_manager s;
          config :=
            Parsed (document_of_jobs (PyDict.values (jobs (sync_manager s))));
          printed := printed s;
          warnings := warnings s |}).
Proof.
  intros w s Hwf Hmk Hopen.
  destruct (well_formed_registry_of _ Hwf) as [Hreg Hnd].
  rewrite (accept_registry (PyDict.values (jobs (sync_manager s))) w
             (dialog (open_dialog (sync_manager s))) s Hmk Hopen Hreg).
  f_equal. f_equal.
  pose proof (fold_register_distinct (PyDict.values (jobs (sync_manager s)))
                [] (clear_jobs (sync_manager s)) Hnd eq_refl) as Hjobs.
  cbn [List.app] in Hjobs. rewrite <- Hreg in Hjobs.
  assert (Hrp : forall js m,
            running_processes (fold_left (fun m job => register job m) js m)
            = running_processes m).
  { induction js as [|j rest IH]; intros m; [reflexivity|].
    cbn [fold_left]. now rewrite IH. }
  specialize (Hrp (PyDict.values (jobs (sync_manager s)))
                (clear_jobs (sync_manager s))).
  destruct (fold_left (fun m job => register job m)
              (PyDict.values (jobs (sync_manager s)))
              (clear_jobs (sync_manager s))) as [js rp].
  destruct (sync_manager s) as [js0 rp0]. cbn in *. now subst.
Qed.

Lemma accept_unedited_dialog_witness :
  sync_manager
    (snd (accept io_ok (dialog (open_dialog docs_manager))
            (session_of docs_manager Missing)))
  = docs_manager.
Proof.
  refine (f_equal (fun r => sync_manager (snd r))
            (accept_unedited_dialog io_ok (session_of docs_manager Missing)
               _ eq_refl eq_refl)).
  split; repeat constructor; simpl; tauto.
Defined.
